(** * DOAJ British-modernism analysis: a shallow embedding of the two scripts

    [analyze_modernism.py] classifies every record of a DOAJ search export by
    era and by publication medium and groups the extracted metadata into
    buckets; [create_analysis_format.py] derives summary statistics from the
    result.  The records come straight out of [json.load], so the embedding
    works on JSON values and every Python operation that can raise returns a
    [result]. *)

From Stdlib Require Import String Ascii ZArith NArith.
From stdpp Require Import base tactics option list gmap.

Local Open Scope N_scope.
Local Set Warnings "-register-all".

(** ** Python values *)

(** A Python [str] is a sequence of Unicode code points. *)
Definition pystr := list N.

(** A source literal.  Every literal of the two scripts is ASCII, with the one
    exception of the e-grave of [fin de siecle], which is spelled out by its
    code point where it occurs. *)
Definition lit (s : string) : pystr := N_of_ascii <$> list_ascii_of_string s.
Global Arguments lit : simpl never.

Inductive exn := AttributeError | TypeError | KeyError | ValueError.

Inductive result (A : Type) :=
  | Ok (a : A)
  | Raise (e : exn).
Arguments Ok {A} a.
Arguments Raise {A} e.

Global Instance result_ret : MRet result := λ A a, Ok a.
Global Instance result_bind : MBind result := λ A B f m,
  match m with
  | Ok a => f a
  | Raise e => Raise e
  end.

Definition returns {A} (m : result A) : Prop := ∃ a, m = Ok a.

(** What [json.load] produces: [None], [bool], numbers, [str], [list] and
    [dict].  A [dict] keeps its keys in insertion order and holds each key
    once; it is a key/value list read from the front.  A float behaves like an
    [int] in every operation below (it has no [get], [lower] or [isdigit], is
    not iterable and is never equal to a [str]), so numbers carry an
    integer. *)
Inductive json :=
  | JNull
  | JBool (b : bool)
  | JNum (n : Z)
  | JStr (s : pystr)
  | JArr (xs : list json)
  | JObj (kvs : list (pystr * json)).

Definition empty_str : json := JStr [].
Definition empty_list : json := JArr [].
Definition empty_dict : json := JObj [].

Fixpoint assoc (k : pystr) (kvs : list (pystr * json)) : option json :=
  match kvs with
  | [] => None
  | (k', v) :: rest => if bool_decide (k' = k) then Some v else assoc k rest
  end.

(** [d.get(k, dflt)]: only a [dict] has the method. *)
Definition py_get (d : json) (k : pystr) (dflt : json) : result json :=
  match d with
  | JObj kvs => Ok (default dflt (assoc k kvs))
  | _ => Raise AttributeError
  end.

(** [d[k]] with a [str] key. *)
Definition py_getitem (d : json) (k : pystr) : result json :=
  match d with
  | JObj kvs =>
      match assoc k kvs with
      | Some v => Ok v
      | None => Raise KeyError
      end
  | _ => Raise TypeError
  end.

(** Iteration, as [for x in v] and [str.join] do it: a [list] yields its
    elements, a [str] its characters, a [dict] its keys. *)
Definition py_iter (v : json) : result (list json) :=
  match v with
  | JArr xs => Ok xs
  | JStr s => Ok ((λ c, JStr [c]) <$> s)
  | JObj kvs => Ok ((λ kv, JStr kv.1) <$> kvs)
  | _ => Raise TypeError
  end.

Fixpoint as_strs (xs : list json) : result (list pystr) :=
  match xs with
  | [] => Ok []
  | JStr s :: rest => ss ← as_strs rest; Ok (s :: ss)
  | _ :: _ => Raise TypeError
  end.

Fixpoint join_strs (sep : pystr) (ss : list pystr) : pystr :=
  match ss with
  | [] => []
  | [s] => s
  | s :: rest => s ++ sep ++ join_strs sep rest
  end.

(** [sep.join(v)] *)
Definition py_join (sep : pystr) (v : json) : result pystr :=
  xs ← py_iter v; ss ← as_strs xs; Ok (join_strs sep ss).

(** [v == s] for a [str] literal [s]. *)
Definition py_eq_str (v : json) (s : pystr) : bool :=
  match v with
  | JStr t => bool_decide (t = s)
  | _ => false
  end.

(** [needle in hay] on two [str]. *)
Fixpoint starts_with (needle hay : pystr) : bool :=
  match needle, hay with
  | [], _ => true
  | _ :: _, [] => false
  | a :: needle', b :: hay' => (a =? b) && starts_with needle' hay'
  end.

Fixpoint str_contains (needle hay : pystr) : bool :=
  starts_with needle hay ||
  match hay with
  | [] => false
  | _ :: hay' => str_contains needle hay'
  end.

(** ** The builtins that depend on the Unicode tables

    [str.lower], the digit property behind [str.isdigit] and [int(str)] are
    the interpreter's; the scripts only call them. *)
Class Builtins := {
  str_lower : pystr → pystr;
  is_digit_cp : N → bool;
  py_int : pystr → result Z;
}.

(** On ASCII text [str.lower] maps [A-Z] to [a-z] and nothing else. *)
Definition is_ascii_cp (c : N) : bool := c <? 128.
Definition ascii_lower_cp (c : N) : N :=
  if (65 <=? c) && (c <=? 90) then c + 32 else c.
Definition ascii_lower (s : pystr) : pystr := ascii_lower_cp <$> s.

Definition lower_on_ascii `{Builtins} : Prop :=
  ∀ s, forallb is_ascii_cp s = true → str_lower s = ascii_lower s.

(** ** analyze_modernism.py *)

Local Notation "m >? n" := (Nat.ltb n m) (at level 70) : nat_scope.

Section analyze_modernism.
Context `{Builtins}.

(** [v.lower()]: only a [str] has the method. *)
Definition py_lower (v : json) : result pystr :=
  match v with
  | JStr s => Ok (str_lower s)
  | _ => Raise AttributeError
  end.

(** [paper.get('bibjson', {}).get(k, dflt)] *)
Definition bib_field (paper : json) (k : string) (dflt : json) : result json :=
  bibjson ← py_get paper (lit "bibjson") empty_dict;
  py_get bibjson (lit k) dflt.

Definition early_indicators : list pystr :=
  [lit "wilde"; lit "aestheticism"; lit "decadence";
   lit "fin de si" ++ [232] ++ lit "cle";
   lit "symbolism"; lit "pater"; lit "beardsley"; lit "symons"].
Definition high_indicators : list pystr :=
  [lit "pound"; lit "eliot"; lit "joyce"; lit "woolf"; lit "yeats";
   lit "imagism"; lit "vorticism"; lit "stream of consciousness";
   lit "waste land"; lit "ulysses"].
Definition late_indicators : list pystr :=
  [lit "auden"; lit "spender"; lit "isherwood"; lit "macneice";
   lit "thirties"; lit "1930s"; lit "spanish civil war"; lit "world war ii"].

Definition Early_Modernism : pystr := lit "Early Modernism (1890s-1910s)".
Definition High_Modernism : pystr := lit "High Modernism (1910s-1920s)".
Definition Late_Modernism : pystr := lit "Late Modernism (1930s-1950s)".
Definition General_Modernism : pystr := lit "General Modernism".

(** [sum(1 for indicator in indicators if indicator in content)] *)
Definition count_indicators (indicators : list pystr) (content : pystr) : nat :=
  length (filter (λ indicator, str_contains indicator content = true) indicators).

(** Lines 13-17 of [categorize_by_era]: the text that is searched. *)
Definition era_content (paper : json) : result pystr :=
  a ← bib_field paper "abstract" empty_str;
  abstract ← py_lower a;
  k ← bib_field paper "keywords" empty_list;
  joined ← py_join (lit " ") k;
  let keywords := str_lower joined in
  t ← bib_field paper "title" empty_str;
  title ← py_lower t;
  year ← bib_field paper "year" empty_str;
  Ok (str_lower (title ++ lit " " ++ abstract ++ lit " " ++ keywords)).

Definition era_counts (content : pystr) : nat * nat * nat :=
  (count_indicators early_indicators content,
   count_indicators high_indicators content,
   count_indicators late_indicators content).

(** Lines 27-34: the comparison of the three counts. *)
Definition era_of_counts (counts : nat * nat * nat) : pystr :=
  let '(early_count, high_count, late_count) := counts in
  if ((early_count >? high_count) && (early_count >? late_count))%nat
  then Early_Modernism
  else if ((high_count >? early_count) && (high_count >? late_count))%nat
  then High_Modernism
  else if ((late_count >? early_count) && (late_count >? high_count))%nat
  then Late_Modernism
  else General_Modernism.

Definition categorize_by_era (paper : json) : result pystr :=
  content ← era_content paper;
  Ok (era_of_counts (era_counts content)).

Definition academic_words : list pystr :=
  [lit "journal"; lit "review"; lit "studies"; lit "quarterly";
   lit "university"; lit "research"].
Definition literary_words : list pystr :=
  [lit "magazine"; lit "letters"; lit "writing"; lit "poetry";
   lit "literature"; lit "arts"].

Definition Academic_Journal : pystr := lit "Academic Journal".
Definition Literary_Magazine : pystr := lit "Literary Magazine".
Definition Other_Publication : pystr := lit "Other Publication".

(** [any(word in content for word in words)] *)
Definition any_word_in (words : list pystr) (content : pystr) : bool :=
  existsb (λ word, str_contains word content) words.

(** Lines 37-40 of [categorize_by_medium]. *)
Definition medium_content (paper : json) : result pystr :=
  journal_info ← bib_field paper "journal" empty_dict;
  jt ← py_get journal_info (lit "title") empty_str;
  journal_title ← py_lower jt;
  pb ← py_get journal_info (lit "publisher") empty_str;
  publisher ← py_lower pb;
  Ok (journal_title ++ lit " " ++ publisher).

(** Lines 42-47. *)
Definition medium_of_content (content : pystr) : pystr :=
  if any_word_in academic_words content then Academic_Journal
  else if any_word_in literary_words content then Literary_Magazine
  else Other_Publication.

Definition categorize_by_medium (paper : json) : result pystr :=
  content ← medium_content paper;
  Ok (medium_of_content content).

(** The dict that [extract_metadata_for_analysis] builds has a fixed set of
    keys; its values are whatever the record holds under them. *)
Record metadata := {
  md_id : json;
  md_title : json;
  md_authors : list json;
  md_year : json;
  md_journal : json;
  md_publisher : json;
  md_country : json;
  md_keywords : json;
  md_abstract : json;
  md_doi : json;
  md_full_text_links : list json;
  md_subjects : list json;
}.

(** [[x.get(k, '') for x in xs]] *)
Fixpoint get_each (k : string) (xs : list json) : result (list json) :=
  match xs with
  | [] => Ok []
  | x :: rest =>
      v ← py_get x (lit k) empty_str;
      vs ← get_each k rest;
      Ok (v :: vs)
  end.

(** [next((id['id'] for id in ids if id.get('type') == 'doi'), None)]: the
    generator is consumed up to its first item only. *)
Fixpoint first_doi (ids : list json) : result json :=
  match ids with
  | [] => Ok JNull
  | id :: rest =>
      ty ← py_get id (lit "type") JNull;
      if py_eq_str ty (lit "doi") then py_getitem id (lit "id")
      else first_doi rest
  end.

(** [[link['url'] for link in links if link.get('type') == 'fulltext']] *)
Fixpoint fulltext_urls (links : list json) : result (list json) :=
  match links with
  | [] => Ok []
  | link :: rest =>
      ty ← py_get link (lit "type") JNull;
      if py_eq_str ty (lit "fulltext") then
        url ← py_getitem link (lit "url");
        urls ← fulltext_urls rest;
        Ok (url :: urls)
      else fulltext_urls rest
  end.

Definition extract_metadata_for_analysis (paper : json) : result metadata :=
  bibjson ← py_get paper (lit "bibjson") empty_dict;
  id ← py_get paper (lit "id") JNull;
  title ← py_get bibjson (lit "title") empty_str;
  author ← py_get bibjson (lit "author") empty_list;
  author_seq ← py_iter author;
  authors ← get_each "name" author_seq;
  year ← py_get bibjson (lit "year") empty_str;
  j1 ← py_get bibjson (lit "journal") empty_dict;
  journal ← py_get j1 (lit "title") empty_str;
  j2 ← py_get bibjson (lit "journal") empty_dict;
  publisher ← py_get j2 (lit "publisher") empty_str;
  j3 ← py_get bibjson (lit "journal") empty_dict;
  country ← py_get j3 (lit "country") empty_str;
  keywords ← py_get bibjson (lit "keywords") empty_list;
  abstract ← py_get bibjson (lit "abstract") empty_str;
  identifier ← py_get bibjson (lit "identifier") empty_list;
  identifier_seq ← py_iter identifier;
  doi ← first_doi identifier_seq;
  link ← py_get bibjson (lit "link") empty_list;
  link_seq ← py_iter link;
  full_text_links ← fulltext_urls link_seq;
  subject ← py_get bibjson (lit "subject") empty_list;
  subject_seq ← py_iter subject;
  subjects ← get_each "term" subject_seq;
  Ok {| md_id := id; md_title := title; md_authors := authors;
        md_year := year; md_journal := journal; md_publisher := publisher;
        md_country := country; md_keywords := keywords;
        md_abstract := abstract; md_doi := doi;
        md_full_text_links := full_text_links; md_subjects := subjects |}.

(** The two labels the loop body computes for a paper (lines 73-74); the
    specification calls the pair [classify]. *)
Definition classify (paper : json) : result (pystr * pystr) :=
  era ← categorize_by_era paper;
  medium ← categorize_by_medium paper;
  Ok (era, medium).

(** [{**metadata, 'era': era, 'medium': medium}] *)
Record classified := {
  cl_metadata : metadata;
  cl_era : pystr;
  cl_medium : pystr;
}.

(** The three accumulators of [analyze_doaj_modernism].  The two
    [defaultdict(list)] are finite maps from label to bucket. *)
Record analysis := {
  era_categories : gmap pystr (list metadata);
  medium_categories : gmap pystr (list metadata);
  all_papers_metadata : list classified;
}.

Definition no_papers : analysis :=
  {| era_categories := ∅; medium_categories := ∅; all_papers_metadata := [] |}.

(** [d[label].append(x)] on a [defaultdict(list)] *)
Definition bucket_append (label : pystr) (x : metadata)
    (d : gmap pystr (list metadata)) : gmap pystr (list metadata) :=
  <[label := default [] (d !! label) ++ [x]]> d.

(** One turn of the loop, lines 73-79. *)
Definition analyze_paper (st : analysis) (paper : json) : result analysis :=
  era ← categorize_by_era paper;
  medium ← categorize_by_medium paper;
  metadata ← extract_metadata_for_analysis paper;
  Ok {| era_categories := bucket_append era metadata (era_categories st);
        medium_categories := bucket_append medium metadata (medium_categories st);
        all_papers_metadata :=
          all_papers_metadata st ++
          [{| cl_metadata := metadata; cl_era := era; cl_medium := medium |}] |}.

Fixpoint analyze_papers (st : analysis) (papers : list json) : result analysis :=
  match papers with
  | [] => Ok st
  | paper :: rest => st' ← analyze_paper st paper; analyze_papers st' rest
  end.

End analyze_modernism.

(** ** create_analysis_format.py *)

Section create_analysis_format.
Context `{Builtins}.

(** [v.isdigit()]: true when [v] is a non-empty [str] of digits only. *)
Definition py_isdigit (v : json) : result bool :=
  match v with
  | JStr s => Ok (negb (bool_decide (s = [])) && forallb is_digit_cp s)
  | _ => Raise AttributeError
  end.

(** [int(p['year']) for p in all_metadata if p['year'].isdigit()] *)
Fixpoint numeric_years (all_metadata : list json) : result (list Z) :=
  match all_metadata with
  | [] => Ok []
  | p :: rest =>
      y ← py_getitem p (lit "year");
      numeric ← py_isdigit y;
      if (numeric : bool) then
        y' ← py_getitem p (lit "year");
        n ← match y' with JStr s => py_int s | _ => Raise TypeError end;
        ns ← numeric_years rest;
        Ok (n :: ns)
      else numeric_years rest
  end.

(** [min] and [max] of a sequence of [int]; both reject the empty one. *)
Definition py_min (ns : list Z) : result Z :=
  match ns with
  | [] => Raise ValueError
  | n :: rest => Ok (foldl Z.min n rest)
  end.
Definition py_max (ns : list Z) : result Z :=
  match ns with
  | [] => Raise ValueError
  | n :: rest => Ok (foldl Z.max n rest)
  end.

(** The ['year_range'] entry of [create_structured_output], lines 60-63:
    the pair (earliest, latest). *)
Definition year_range (results : json) : result (Z * Z) :=
  m1 ← py_getitem results (lit "all_metadata");
  ps1 ← py_iter m1;
  ys1 ← numeric_years ps1;
  earliest ← py_min ys1;
  m2 ← py_getitem results (lit "all_metadata");
  ps2 ← py_iter m2;
  ys2 ← numeric_years ps2;
  latest ← py_max ys2;
  Ok (earliest, latest).

End create_analysis_format.

(** ** The labels, as [create_readme] lists them *)

Definition era_labels : list pystr :=
  [Early_Modernism; High_Modernism; Late_Modernism; General_Modernism].
Definition medium_labels : list pystr :=
  [Academic_Journal; Literary_Magazine; Other_Publication].

(** ** Records of the expected shape

    A field may be missing; when it is there it has the type the DOAJ schema
    gives it. *)

Definition is_str (v : json) : bool :=
  match v with JStr _ => true | _ => false end.
Definition is_dict (v : json) : bool :=
  match v with JObj _ => true | _ => false end.
Definition is_list_of (P : json → bool) (v : json) : bool :=
  match v with JArr xs => forallb P xs | _ => false end.
Definition absent_or (P : json → bool) (o : option json) : bool :=
  from_option P true o.

(** The entry is a [dict] whose ['type'] is the [str] [ty]. *)
Definition has_type (ty : string) (entry : json) : bool :=
  match entry with
  | JObj kvs => py_eq_str (default JNull (assoc (lit "type") kvs)) (lit ty)
  | _ => false
  end.

(** The entry is a [dict], and one of type [ty] carries the key [key]. *)
Definition entry_typed (ty key : string) (entry : json) : bool :=
  match entry with
  | JObj kvs =>
      if has_type ty entry then bool_decide (is_Some (assoc (lit key) kvs))
      else true
  | _ => false
  end.

Definition journal_typed (journal : json) : bool :=
  match journal with
  | JObj kvs =>
      absent_or is_str (assoc (lit "title") kvs) &&
      absent_or is_str (assoc (lit "publisher") kvs)
  | _ => false
  end.

(** [paper.get('bibjson', {})] when it is a [dict]. *)
Definition bibjson_of (paper : json) : option (list (pystr * json)) :=
  match paper with
  | JObj kvs =>
      match default empty_dict (assoc (lit "bibjson") kvs) with
      | JObj b => Some b
      | _ => None
      end
  | _ => None
  end.

(** The fields the two classifiers read. *)
Definition text_typed (paper : json) : bool :=
  match bibjson_of paper with
  | Some b =>
      absent_or is_str (assoc (lit "title") b) &&
      absent_or is_str (assoc (lit "abstract") b) &&
      absent_or (is_list_of is_str) (assoc (lit "keywords") b) &&
      absent_or journal_typed (assoc (lit "journal") b)
  | None => false
  end.

(** The sequences [extract_metadata_for_analysis] walks through. *)
Definition lists_typed (paper : json) : bool :=
  match bibjson_of paper with
  | Some b =>
      absent_or (is_list_of is_dict) (assoc (lit "author") b) &&
      absent_or is_dict (assoc (lit "journal") b) &&
      absent_or (is_list_of (entry_typed "doi" "id")) (assoc (lit "identifier") b) &&
      absent_or (is_list_of (entry_typed "fulltext" "url")) (assoc (lit "link") b) &&
      absent_or (is_list_of is_dict) (assoc (lit "subject") b)
  | None => false
  end.

Definition record_typed (paper : json) : bool :=
  text_typed paper && lists_typed paper.

(** [needle] occurs in [hay]. *)
Definition occurs_in (needle hay : pystr) : Prop :=
  ∃ before after, hay = before ++ needle ++ after.

(** ** The builtins on ASCII text

    The interpreter's functions restricted to ASCII, to run the model on
    concrete records. *)

Definition ascii_digit_cp (c : N) : bool := (48 <=? c) && (c <=? 57).
Definition ascii_int (s : pystr) : result Z :=
  if negb (bool_decide (s = [])) && forallb ascii_digit_cp s
  then Ok (foldl (λ acc c, acc * 10 + Z.of_N (c - 48))%Z 0%Z s)
  else Raise ValueError.

Definition ascii_builtins : Builtins :=
  {| str_lower := ascii_lower; is_digit_cp := ascii_digit_cp; py_int := ascii_int |}.

(** ** Sample records *)

Definition paper_with (bibjson : list (pystr * json)) : json :=
  JObj [(lit "id", JStr (lit "0001")); (lit "bibjson", JObj bibjson)].

(** Two early and two high indicators, no late one. *)
Definition tied_paper : json :=
  paper_with [(lit "title", JStr (lit "Wilde and Pater read by Pound and Eliot"))].

Definition null_abstract_paper : json :=
  paper_with [(lit "title", JStr (lit "Modernism")); (lit "abstract", JNull)].

Definition all_empty_paper : json :=
  JObj [(lit "id", empty_str);
        (lit "bibjson", JObj [
           (lit "title", empty_str); (lit "author", empty_list);
           (lit "year", empty_str);
           (lit "journal", JObj [(lit "title", empty_str);
                                 (lit "publisher", empty_str);
                                 (lit "country", empty_str)]);
           (lit "keywords", empty_list); (lit "abstract", empty_str);
           (lit "identifier", empty_list); (lit "link", empty_list);
           (lit "subject", empty_list)])].

Definition waste_land_paper : json :=
  paper_with [(lit "title", JStr (lit "A century of waste"));
              (lit "abstract", JStr (lit "land reform in interwar Britain"))].

Definition both_words_paper : json :=
  paper_with [(lit "journal",
               JObj [(lit "title", JStr (lit "Poetry Review"));
                     (lit "publisher", JStr (lit "Arts Press"))])].

Definition doi_paper : json :=
  paper_with [(lit "identifier", JArr [
     JObj [(lit "type", JStr (lit "eissn")); (lit "id", JStr (lit "2041-1022"))];
     JObj [(lit "type", JStr (lit "DOI")); (lit "id", JStr (lit "10.1/upper"))];
     JObj [(lit "type", JStr (lit "doi")); (lit "id", JStr (lit "10.1/first"))];
     JObj [(lit "type", JStr (lit "doi")); (lit "id", JStr (lit "10.1/second"))]])].

(** A result file whose only record has no year. *)
Definition undated_results : json :=
  JObj [(lit "era_categories", JObj []); (lit "medium_categories", JObj []);
        (lit "all_metadata", JArr [
           JObj [(lit "id", JStr (lit "0001"));
                 (lit "title", JStr (lit "Modernism"));
                 (lit "year", empty_str)]])].

(** ** What the classifiers read, and what the buckets hold *)

Section reads.
Context `{Builtins}.

(** [paper.get('bibjson', {}).get('journal', {}).get(k, '')] *)
Definition journal_field (paper : json) (k : string) : result json :=
  journal_info ← bib_field paper "journal" empty_dict;
  py_get journal_info (lit k) empty_str.

(** The five lookups the labels are computed from. *)
Definition text_fields (paper : json) : list (result json) :=
  [bib_field paper "title" empty_str;
   bib_field paper "abstract" empty_str;
   bib_field paper "keywords" empty_list;
   journal_field paper "title";
   journal_field paper "publisher"].

(** [categorize_by_era] on the outcome of its three lookups. *)
Definition era_from (title abstract keywords : result json) : result pystr :=
  a ← abstract;
  abstract' ← py_lower a;
  k ← keywords;
  joined ← py_join (lit " ") k;
  t ← title;
  title' ← py_lower t;
  Ok (era_of_counts (era_counts
        (str_lower (title' ++ lit " " ++ abstract' ++ lit " " ++
                    str_lower joined)))).

(** [categorize_by_medium] on the outcome of its two lookups. *)
Definition medium_from (title publisher : result json) : result pystr :=
  jt ← title;
  journal_title ← py_lower jt;
  pb ← publisher;
  publisher' ← py_lower pb;
  Ok (medium_of_content (journal_title ++ lit " " ++ publisher')).

(** The labels of the record the loop appended last. *)
Definition last_labels (st : analysis) : option (pystr * pystr) :=
  (λ c, (cl_era c, cl_medium c)) <$> last (all_papers_metadata st).

(** The buckets [d] group the metadata of the classified records [cs] by
    the label [key]: a bucket holds the records of its label in their
    order, and all buckets together hold every record once. *)
Definition grouped (key : classified → pystr) (cs : list classified)
    (d : gmap pystr (list metadata)) : Prop :=
  (∀ label, default [] (d !! label) =
            cl_metadata <$> filter (λ c, key c = label) cs) ∧
  concat (snd <$> map_to_list d) ≡ₚ cl_metadata <$> cs.

End reads.

(** ** More of Python *)

(** The truth value of a loaded value, as [if v] and [x if v else y] take
    it. *)
Definition py_truthy (v : json) : bool :=
  match v with
  | JNull => false
  | JBool b => b
  | JNum n => negb (n =? 0)%Z
  | JStr s => match s with [] => false | _ :: _ => true end
  | JArr xs => match xs with [] => false | _ :: _ => true end
  | JObj kvs => match kvs with [] => false | _ :: _ => true end
  end.

(** [len(v)] *)
Definition py_len (v : json) : result nat :=
  match v with
  | JStr s => Ok (length s)
  | JArr xs => Ok (length xs)
  | JObj kvs => Ok (length kvs)
  | _ => Raise TypeError
  end.

(** [s.replace(old, new)] on a [str]: every occurrence of [old], from the
    left and without overlap; [skip] counts the characters of an occurrence
    that are still to be dropped.  With an empty [old], [new] goes before
    every character and at the end. *)
Fixpoint replace_from (old new : pystr) (skip : nat) (s : pystr) : pystr :=
  match s with
  | [] => []
  | c :: rest =>
      match skip with
      | S skip' => replace_from old new skip' rest
      | O =>
          if starts_with old s
          then new ++ replace_from old new (length old - 1) rest
          else c :: replace_from old new 0 rest
      end
  end.

Definition str_replace (old new s : pystr) : pystr :=
  match old with
  | [] => new ++ flat_map (λ c, c :: new) s
  | _ :: _ => replace_from old new 0 s
  end.

(** [v.replace(old, new)]: only a [str] has the method. *)
Definition py_replace (v : json) (old new : pystr) : result pystr :=
  match v with
  | JStr s => Ok (str_replace old new s)
  | _ => Raise AttributeError
  end.

(** [d.keys()] and [d.items()]: only a [dict] has them. *)
Definition py_keys (d : json) : result (list pystr) :=
  match d with
  | JObj kvs => Ok (kvs.*1)
  | _ => Raise AttributeError
  end.
Definition py_items (d : json) : result (list (pystr * json)) :=
  match d with
  | JObj kvs => Ok kvs
  | _ => Raise AttributeError
  end.

(** What a [set] tells its elements apart by.  [True] and [1] are the same
    element; a [list] and a [dict] cannot be hashed. *)
Inductive hashed :=
  | HNone
  | HNum (n : Z)
  | HStr (s : pystr).

Global Instance hashed_eq_dec : EqDecision hashed.
Proof. solve_decision. Defined.

Definition py_hash (v : json) : result hashed :=
  match v with
  | JNull => Ok HNone
  | JBool b => Ok (HNum (if b then 1 else 0))
  | JNum n => Ok (HNum n)
  | JStr s => Ok (HStr s)
  | JArr _ | JObj _ => Raise TypeError
  end.

Definition LF : pystr := [10].
Definition CR : pystr := [13].

(** ** analyze_doaj_modernism as a whole

    After the loop the function prints a summary and returns the three
    accumulators.  What it prints is left out; what the printing can raise is
    kept.  Writing to the standard output is taken to succeed. *)

(** Subscripting a [dict] with a slice raises [TypeError] up to Python 3.11,
    where a slice cannot be hashed, and [KeyError] from Python 3.12 on. *)
Class Slicing := { dict_slice_error : exn }.

(** [v[:60]] *)
Definition py_slice60 `{Slicing} (v : json) : result json :=
  match v with
  | JStr s => Ok (JStr (take 60 s))
  | JArr xs => Ok (JArr (take 60 xs))
  | JObj _ => Raise dict_slice_error
  | _ => Raise TypeError
  end.

(** The keys of a [defaultdict] the loop has filled, in the order [items()]
    gives them: a key is created when the first paper of its label is
    filed. *)
Fixpoint first_seen (seen labels : list pystr) : list pystr :=
  match labels with
  | [] => []
  | label :: rest =>
      if bool_decide (label ∈ seen) then first_seen seen rest
      else label :: first_seen (label :: seen) rest
  end.

(** [paper['title'][:60]] for each of the [papers], line 86. *)
Fixpoint shown_titles `{Slicing} (papers : list metadata) : result (list json) :=
  match papers with
  | [] => Ok []
  | paper :: rest =>
      title ← py_slice60 (md_title paper);
      titles ← shown_titles rest;
      Ok (title :: titles)
  end.

(** [set(paper['journal'] for paper in papers if paper['journal'])], line 91,
    as the sequence of what is added to the set. *)
Fixpoint journal_set (papers : list metadata) : result (list hashed) :=
  match papers with
  | [] => Ok []
  | paper :: rest =>
      if py_truthy (md_journal paper) then
        h ← py_hash (md_journal paper);
        hs ← journal_set rest;
        Ok (h :: hs)
      else journal_set rest
  end.

(** Two elements of a set can be ordered when both are strings or both are
    numbers. *)
Definition comparable (h1 h2 : hashed) : bool :=
  match h1, h2 with
  | HStr _, HStr _ | HNum _, HNum _ => true
  | _, _ => false
  end.

(** [sorted(journals)], line 92: ordering a set that mixes strings and
    numbers raises; the order itself only shows in the output. *)
Definition py_sorted (journals : list hashed) : result unit :=
  match remove_dups journals with
  | [] => Ok ()
  | h :: hs => if forallb (comparable h) hs then Ok () else Raise TypeError
  end.

Section whole_function.
Context `{Builtins} `{Slicing}.

(** Lines 83-86, over the era buckets in their order. *)
Fixpoint era_report (st : analysis) (labels : list pystr) : result unit :=
  match labels with
  | [] => Ok ()
  | era :: rest =>
      let papers := default [] (era_categories st !! era) in
      titles ← shown_titles (take 2 papers);
      era_report st rest
  end.

(** Lines 89-93, over the medium buckets in their order. *)
Fixpoint medium_report (st : analysis) (labels : list pystr) : result unit :=
  match labels with
  | [] => Ok ()
  | medium :: rest =>
      let papers := default [] (medium_categories st !! medium) in
      journals ← journal_set papers;
      sorted ← py_sorted journals;
      medium_report st rest
  end.

(** Lines 67-95, on the loaded [data]. *)
Definition analyze_doaj_modernism (data : json) : result analysis :=
  results ← py_getitem data (lit "results");
  papers ← py_iter results;
  st ← analyze_papers no_papers papers;
  total ← py_getitem data (lit "total");
  eras ← era_report st (first_seen [] (cl_era <$> all_papers_metadata st));
  media ← medium_report st
            (first_seen [] (cl_medium <$> all_papers_metadata st));
  Ok st.

End whole_function.

(** The interpreter from Python 3.12 on, for the examples. *)
Definition python_3_12 : Slicing := {| dict_slice_error := KeyError |}.

(** ** The rest of create_analysis_format.py *)

(** The row [create_csv_for_analysis] builds for a paper. *)
Record csv_row := {
  row_id : json;
  row_title : json;
  row_authors : pystr;
  row_year : json;
  row_era : json;
  row_journal : json;
  row_publisher : json;
  row_country : json;
  row_medium : json;
  row_keywords : pystr;
  row_abstract : pystr;
  row_doi : json;
  row_full_text_links : pystr;
  row_subjects : pystr;
  row_abstract_length : nat;
  row_has_doi : pystr;
  row_has_full_text : pystr;
  row_keyword_count : nat;
}.

Definition yes_no (b : bool) : pystr := if b then lit "Yes" else lit "No".

(** Lines 15-34. *)
Definition csv_row_of (paper : json) : result csv_row :=
  id ← py_getitem paper (lit "id");
  title ← py_getitem paper (lit "title");
  a ← py_getitem paper (lit "authors");
  authors ← py_join (lit "; ") a;
  year ← py_getitem paper (lit "year");
  era ← py_getitem paper (lit "era");
  journal ← py_getitem paper (lit "journal");
  publisher ← py_getitem paper (lit "publisher");
  country ← py_getitem paper (lit "country");
  medium ← py_getitem paper (lit "medium");
  k ← py_getitem paper (lit "keywords");
  keywords ← py_join (lit "; ") k;
  ab ← py_getitem paper (lit "abstract");
  ab' ← py_replace ab LF (lit " ");
  let abstract := str_replace CR (lit " ") ab' in
  doi ← py_get paper (lit "doi") empty_str;
  l ← py_getitem paper (lit "full_text_links");
  full_text_links ← py_join (lit "; ") l;
  s ← py_getitem paper (lit "subjects");
  subjects ← py_join (lit "; ") s;
  ab2 ← py_getitem paper (lit "abstract");
  abstract_length ← py_len ab2;
  doi2 ← py_get paper (lit "doi") JNull;
  l2 ← py_getitem paper (lit "full_text_links");
  k2 ← py_getitem paper (lit "keywords");
  keyword_count ← py_len k2;
  Ok {| row_id := id; row_title := title; row_authors := authors;
        row_year := year; row_era := era; row_journal := journal;
        row_publisher := publisher; row_country := country;
        row_medium := medium; row_keywords := keywords;
        row_abstract := abstract; row_doi := doi;
        row_full_text_links := full_text_links; row_subjects := subjects;
        row_abstract_length := abstract_length;
        row_has_doi := yes_no (py_truthy doi2);
        row_has_full_text := yes_no (py_truthy l2);
        row_keyword_count := keyword_count |}.

(** The loop of lines 14-35. *)
Fixpoint csv_rows (papers : list json) : result (list csv_row) :=
  match papers with
  | [] => Ok []
  | paper :: rest =>
      row ← csv_row_of paper;
      rows ← csv_rows rest;
      Ok (row :: rows)
  end.

Definition csv_fieldnames : list pystr :=
  [lit "id"; lit "title"; lit "authors"; lit "year"; lit "era";
   lit "journal"; lit "publisher"; lit "country"; lit "medium";
   lit "keywords"; lit "abstract"; lit "doi"; lit "full_text_links";
   lit "subjects"; lit "abstract_length"; lit "has_doi";
   lit "has_full_text"; lit "keyword_count"].

(** How [create_csv_for_analysis] ends: with the header and the rows it
    hands to the writer, with an exception of the row loop, or with the
    [IndexError] of [csv_data[0]] on an empty table. *)
Inductive csv_outcome :=
  | CsvWritten (fieldnames : list pystr) (rows : list csv_row)
  | CsvRaised (e : exn)
  | CsvIndexError.

Definition create_csv_for_analysis (results : json) : csv_outcome :=
  match (all_metadata ← py_getitem results (lit "all_metadata");
         papers ← py_iter all_metadata;
         csv_rows papers) with
  | Raise e => CsvRaised e
  | Ok [] => CsvIndexError
  | Ok (row :: rows) => CsvWritten csv_fieldnames (row :: rows)
  end.

(** [{era: len(papers) for era, papers in d.items()}] *)
Fixpoint distribution (items : list (pystr * json)) : result (list (pystr * nat)) :=
  match items with
  | [] => Ok []
  | (label, papers) :: rest =>
      n ← py_len papers;
      ns ← distribution rest;
      Ok ((label, n) :: ns)
  end.

(** [set(p[key] for p in papers if p[key])] as the sequence of what is
    added to the set. *)
Fixpoint truthy_values (key : string) (papers : list json) : result (list hashed) :=
  match papers with
  | [] => Ok []
  | p :: rest =>
      v ← py_getitem p (lit key);
      if py_truthy v then
        v' ← py_getitem p (lit key);
        h ← py_hash v';
        hs ← truthy_values key rest;
        Ok (h :: hs)
      else truthy_values key rest
  end.

(** [len(set(...))] *)
Definition distinct_count (key : string) (papers : list json) : result nat :=
  hs ← truthy_values key papers;
  Ok (length (remove_dups hs)).

(** [[p for p in papers if p['full_text_links']]] *)
Fixpoint with_full_text (papers : list json) : result (list json) :=
  match papers with
  | [] => Ok []
  | p :: rest =>
      l ← py_getitem p (lit "full_text_links");
      ps ← with_full_text rest;
      Ok (if py_truthy l then p :: ps else ps)
  end.

(** [[p for p in papers if p.get('doi')]] *)
Fixpoint with_doi (papers : list json) : result (list json) :=
  match papers with
  | [] => Ok []
  | p :: rest =>
      d ← py_get p (lit "doi") JNull;
      ps ← with_doi rest;
      Ok (if py_truthy d then p :: ps else ps)
  end.

(** [[{'id': p['id'], 'title': p['title'], k: p[k], 'era': p['era'],
      'year': p['year']} for p in papers]] *)
Fixpoint projected (k : string) (papers : list json) : result (list json) :=
  match papers with
  | [] => Ok []
  | p :: rest =>
      id ← py_getitem p (lit "id");
      title ← py_getitem p (lit "title");
      v ← py_getitem p (lit k);
      era ← py_getitem p (lit "era");
      year ← py_getitem p (lit "year");
      ps ← projected k rest;
      Ok (JObj [(lit "id", id); (lit "title", title); (lit k, v);
                (lit "era", era); (lit "year", year)] :: ps)
  end.

(** What [create_structured_output] serialises, without the extraction date
    and the constant strings. *)
Record structured_output := {
  total_papers_in_doaj : Z;
  papers_analyzed : nat;
  by_era : list pystr;
  by_medium : list pystr;
  era_distribution : list (pystr * nat);
  medium_distribution : list (pystr * nat);
  earliest : Z;
  latest : Z;
  countries_represented : nat;
  journals_represented : nat;
  papers_with_full_text : nat;
  papers_with_doi : nat;
  organized_by_era : json;
  organized_by_medium : json;
  all_abstracts : list json;
  all_keywords : list json;
  full_text_available : list json;
}.

Section structured_output_and_files.
Context `{Builtins}.

(** [results['all_metadata']], iterated. *)
Definition all_metadata_of (results : json) : result (list json) :=
  all_metadata ← py_getitem results (lit "all_metadata");
  py_iter all_metadata.

(** Lines 45-78. *)
Definition create_structured_output (results : json) : result structured_output :=
  m ← py_getitem results (lit "all_metadata");
  analyzed ← py_len m;
  e1 ← py_getitem results (lit "era_categories");
  eras ← py_keys e1;
  m1 ← py_getitem results (lit "medium_categories");
  media ← py_keys m1;
  e2 ← py_getitem results (lit "era_categories");
  era_items ← py_items e2;
  era_dist ← distribution era_items;
  m2 ← py_getitem results (lit "medium_categories");
  medium_items ← py_items m2;
  medium_dist ← distribution medium_items;
  range ← year_range results;
  ps1 ← all_metadata_of results;
  countries ← distinct_count "country" ps1;
  ps2 ← all_metadata_of results;
  journals ← distinct_count "journal" ps2;
  ps3 ← all_metadata_of results;
  full_text ← with_full_text ps3;
  ps4 ← all_metadata_of results;
  doi ← with_doi ps4;
  e3 ← py_getitem results (lit "era_categories");
  m3 ← py_getitem results (lit "medium_categories");
  ps5 ← all_metadata_of results;
  abstracts ← projected "abstract" ps5;
  ps6 ← all_metadata_of results;
  keywords ← projected "keywords" ps6;
  ps7 ← all_metadata_of results;
  available ← with_full_text ps7;
  Ok {| total_papers_in_doaj := 84;
        papers_analyzed := analyzed;
        by_era := eras; by_medium := media;
        era_distribution := era_dist; medium_distribution := medium_dist;
        earliest := range.1; latest := range.2;
        countries_represented := countries;
        journals_represented := journals;
        papers_with_full_text := length full_text;
        papers_with_doi := length doi;
        organized_by_era := e3; organized_by_medium := m3;
        all_abstracts := abstracts; all_keywords := keywords;
        full_text_available := available |}.

(** The file name of [create_era_specific_files], line 86. *)
Definition era_filename (era : pystr) : pystr :=
  lit "era_" ++
  str_replace (lit "-") (lit "_")
    (str_replace (lit ")") []
       (str_replace (lit "(") []
          (str_replace (lit " ") (lit "_") (str_lower era)))) ++
  lit ".json".

(** One file of [create_era_specific_files]: its name and the [era_data]
    written to it. *)
Record era_file := {
  ef_filename : pystr;
  ef_era : pystr;
  ef_paper_count : nat;
  ef_papers : json;
}.

Fixpoint era_files (items : list (pystr * json)) : result (list era_file) :=
  match items with
  | [] => Ok []
  | (era, papers) :: rest =>
      let filename := era_filename era in
      n ← py_len papers;
      files ← era_files rest;
      Ok ({| ef_filename := filename; ef_era := era;
             ef_paper_count := n; ef_papers := papers |} :: files)
  end.

(** The files in the order they are written. *)
Definition create_era_specific_files (results : json) : result (list era_file) :=
  era_categories ← py_getitem results (lit "era_categories");
  items ← py_items era_categories;
  era_files items.

End structured_output_and_files.

(** ** From the first script to the second

    [json.dump] writes the classified records as objects and [json.load]
    reads them back. *)

Definition metadata_items (md : metadata) : list (pystr * json) :=
  [(lit "id", md_id md); (lit "title", md_title md);
   (lit "authors", JArr (md_authors md)); (lit "year", md_year md);
   (lit "journal", md_journal md); (lit "publisher", md_publisher md);
   (lit "country", md_country md); (lit "keywords", md_keywords md);
   (lit "abstract", md_abstract md); (lit "doi", md_doi md);
   (lit "full_text_links", JArr (md_full_text_links md));
   (lit "subjects", JArr (md_subjects md))].

Definition classified_json (c : classified) : json :=
  JObj (metadata_items (cl_metadata c) ++
        [(lit "era", JStr (cl_era c)); (lit "medium", JStr (cl_medium c))]).

(** ** More sample records *)

(** The metadata of a record without [bibjson]. *)
Definition empty_metadata (id : json) : metadata :=
  {| md_id := id; md_title := empty_str; md_authors := [];
     md_year := empty_str; md_journal := empty_str;
     md_publisher := empty_str; md_country := empty_str;
     md_keywords := empty_list; md_abstract := empty_str; md_doi := JNull;
     md_full_text_links := []; md_subjects := [] |}.

Definition links_bibjson : list (pystr * json) :=
  [(lit "author", JArr [JObj [(lit "name", JStr (lit "A. Reader"))];
                        JObj [(lit "affiliation", JStr (lit "Leeds"))]]);
   (lit "link", JArr [
      JObj [(lit "type", JStr (lit "homepage")); (lit "url", JStr (lit "h"))];
      JObj [(lit "type", JStr (lit "fulltext")); (lit "url", JStr (lit "f1"))];
      JObj [(lit "url", JStr (lit "untyped"))];
      JObj [(lit "type", JStr (lit "fulltext")); (lit "url", JStr (lit "f2"))]]);
   (lit "subject", JArr [JObj [(lit "term", JStr (lit "English literature"))]])].

Definition links_paper : list (pystr * json) :=
  [(lit "id", JStr (lit "0002")); (lit "bibjson", JObj links_bibjson)].

(** A [doi] identifier without [id], then one with it. *)
Definition doi_without_id_paper : list (pystr * json) :=
  [(lit "bibjson", JObj [(lit "identifier", JArr [
      JObj [(lit "type", JStr (lit "pissn")); (lit "id", JStr (lit "0026-7724"))];
      JObj [(lit "type", JStr (lit "doi"))];
      JObj [(lit "type", JStr (lit "doi")); (lit "id", JStr (lit "10.1/x"))]])])].

(** A [doi] identifier followed by entries that are not objects. *)
Definition doi_then_junk_paper : list (pystr * json) :=
  [(lit "bibjson", JObj [(lit "identifier", JArr [
      JObj [(lit "type", JStr (lit "doi")); (lit "id", JStr (lit "10.1/x"))];
      JNull; JStr (lit "doi"); JNum 7])])].

(** The keys a record must have for [create_csv_for_analysis]; [doi] may be
    missing. *)
Definition csv_required_keys : list pystr :=
  [lit "id"; lit "title"; lit "authors"; lit "year"; lit "era";
   lit "journal"; lit "publisher"; lit "country"; lit "medium";
   lit "keywords"; lit "abstract"; lit "full_text_links"; lit "subjects"].

(** A line break becomes a space. *)
Definition one_line_cp (c : N) : N :=
  if (c =? 10) || (c =? 13) then 32 else c.

(** The entry is an object whose [key], when there, holds a string. *)
Definition field_is_str (key : string) (entry : json) : bool :=
  match entry with
  | JObj kvs => absent_or is_str (assoc (lit key) kvs)
  | _ => false
  end.

(** The names of the authors, the urls of the links and the terms of the
    subjects are strings. *)
Definition strings_typed (paper : json) : bool :=
  match bibjson_of paper with
  | Some b =>
      absent_or (is_list_of (field_is_str "name")) (assoc (lit "author") b) &&
      absent_or (is_list_of (field_is_str "url")) (assoc (lit "link") b) &&
      absent_or (is_list_of (field_is_str "term")) (assoc (lit "subject") b)
  | None => false
  end.

(** The metadata holds strings where the CSV row joins or measures them. *)
Definition metadata_strings (md : metadata) : bool :=
  forallb is_str (md_authors md) &&
  is_list_of is_str (md_keywords md) &&
  is_str (md_abstract md) &&
  forallb is_str (md_full_text_links md) &&
  forallb is_str (md_subjects md).

(** A record of the result file, its abstract on two lines. *)
Definition csv_sample_paper : list (pystr * json) :=
  [(lit "id", JStr (lit "0001")); (lit "title", JStr (lit "On Vorticism"));
   (lit "authors", JArr [JStr (lit "A. Reader"); JStr (lit "B. Writer")]);
   (lit "year", JStr (lit "2015")); (lit "journal", JStr (lit "Blast Studies"));
   (lit "publisher", JStr (lit "Leeds")); (lit "country", JStr (lit "GB"));
   (lit "keywords", JArr [JStr (lit "vorticism")]);
   (lit "abstract", JStr (lit "First line." ++ LF ++ lit "Second line."));
   (lit "full_text_links", JArr []); (lit "subjects", JArr []);
   (lit "era", JStr High_Modernism); (lit "medium", JStr Academic_Journal)].

(** A paper with authors, links and subjects in full. *)
Definition full_paper : json :=
  paper_with [
    (lit "title", JStr (lit "Pound and the Vortex"));
    (lit "author", JArr [JObj [(lit "name", JStr (lit "A. Reader"))]]);
    (lit "year", JStr (lit "2015"));
    (lit "journal", JObj [(lit "title", JStr (lit "Blast Studies"));
                          (lit "country", JStr (lit "GB"))]);
    (lit "keywords", JArr [JStr (lit "vorticism")]);
    (lit "abstract", JStr (lit "On Blast."));
    (lit "identifier", JArr [JObj [(lit "type", JStr (lit "doi"));
                                   (lit "id", JStr (lit "10.1/x"))]]);
    (lit "link", JArr [JObj [(lit "type", JStr (lit "fulltext"));
                             (lit "url", JStr (lit "https://x"))]]);
    (lit "subject", JArr [JObj [(lit "term", JStr (lit "English"))]])].

(** A result file with one record. *)
Definition sample_results : json :=
  JObj [(lit "era_categories",
         JObj [(High_Modernism, JArr [JObj csv_sample_paper])]);
        (lit "medium_categories",
         JObj [(Academic_Journal, JArr [JObj csv_sample_paper])]);
        (lit "all_metadata", JArr [JObj csv_sample_paper])].

(** What a character of an era label leaves in the file name: its lower
    case, an underscore for a space or a hyphen, nothing for a
    parenthesis. *)
Definition era_core_cp (c : N) : list N :=
  let c' := ascii_lower_cp c in
  if (c' =? 32) || (c' =? 45) then [95]
  else if (c' =? 40) || (c' =? 41) then []
  else [c'].

(** A result file with a bucket for each of the four eras. *)
Definition four_era_buckets : list (pystr * json) :=
  [(General_Modernism, JArr [JObj csv_sample_paper; JObj csv_sample_paper]);
   (High_Modernism, JArr [JObj csv_sample_paper]);
   (Early_Modernism, JArr [JObj csv_sample_paper]);
   (Late_Modernism, JArr [JObj csv_sample_paper])].

Definition four_era_results : json :=
  JObj [(lit "era_categories", JObj four_era_buckets);
        (lit "medium_categories", JObj []);
        (lit "all_metadata", JArr [])].

(** What is left of an era label in its file name. *)
Definition filename_cp_ok (c : N) : bool :=
  negb ((c =? 32) || (c =? 40) || (c =? 41) || (c =? 45)) &&
  negb ((65 <=? c) && (c <=? 90)).

(** * Properties *)

Ltac bind_simpl := cbn [mbind result_bind mret result_ret].

(** ** The result monad and the string search *)

Lemma bind_Ok {A B} (m : result A) (f : A → result B) b :
  m ≫= f = Ok b ↔ ∃ a, m = Ok a ∧ f a = Ok b.
Proof.
  destruct m as [a|e]; simpl; split.
  - intros Hf. by exists a.
  - by intros (a' & [= ->] & Hf).
  - done.
  - by intros (a' & ? & _).
Qed.

Ltac bind_inv H :=
  repeat (apply bind_Ok in H as (? & ? & H)).

Lemma starts_with_spec needle hay :
  starts_with needle hay = true ↔ ∃ after, hay = needle ++ after.
Proof.
  revert hay. induction needle as [|a needle IH]; intros hay; simpl.
  - split; [by exists hay | done].
  - destruct hay as [|b hay].
    + split; [done | by intros (after & ?)].
    + rewrite andb_true_iff, N.eqb_eq, IH. split.
      * intros [-> (after & ->)]. by exists after.
      * intros (after & [= -> ->]). split; [done | by exists after].
Qed.

Lemma str_contains_spec needle hay :
  str_contains needle hay = true ↔ occurs_in needle hay.
Proof.
  unfold occurs_in. induction hay as [|b hay IH]; simpl.
  - rewrite orb_false_r, starts_with_spec. split.
    + intros (after & ->). by exists [], after.
    + intros (before & after & Heq). symmetry in Heq.
      apply app_eq_nil in Heq as [-> Heq].
      apply app_eq_nil in Heq as [-> ->]. by exists [].
  - rewrite orb_true_iff, starts_with_spec, IH. split.
    + intros [(after & ->) | (before & after & ->)].
      * by exists [], after.
      * by exists (b :: before), after.
    + intros ([|c before] & after & Heq); simpl in Heq.
      * left. by exists after.
      * injection Heq as -> ->. right. by exists before, after.
Qed.

Lemma any_word_in_spec words content :
  any_word_in words content = true ↔
  ∃ word, word ∈ words ∧ occurs_in word content.
Proof.
  unfold any_word_in. rewrite existsb_exists.
  split; intros (word & Hin & Hocc); exists word.
  - by rewrite list_elem_of_In, <-str_contains_spec.
  - by rewrite <-list_elem_of_In, str_contains_spec.
Qed.

(** ** The label sets *)

Lemma era_labels_NoDup : NoDup era_labels.
Proof. by apply (bool_decide_unpack _). Qed.

Lemma medium_labels_NoDup : NoDup medium_labels.
Proof. by apply (bool_decide_unpack _). Qed.

Lemma era_of_counts_label counts : era_of_counts counts ∈ era_labels.
Proof.
  destruct counts as [[e h] l]. unfold era_of_counts, era_labels.
  repeat case_match; set_solver.
Qed.

Lemma medium_of_content_label content : medium_of_content content ∈ medium_labels.
Proof. unfold medium_of_content, medium_labels. repeat case_match; set_solver. Qed.

Lemma era_of_counts_cases (early high late : nat) :
  (era_of_counts (early, high, late) = Early_Modernism ↔
     (early > high ∧ early > late)%nat) ∧
  (era_of_counts (early, high, late) = High_Modernism ↔
     (high > early ∧ high > late)%nat) ∧
  (era_of_counts (early, high, late) = Late_Modernism ↔
     (late > early ∧ late > high)%nat) ∧
  (era_of_counts (early, high, late) = General_Modernism ↔
     ((early = high ∧ late ≤ early) ∨ (early = late ∧ high ≤ early) ∨
      (high = late ∧ early ≤ high))%nat).
Proof.
  unfold era_of_counts.
  destruct (Nat.ltb_spec high early), (Nat.ltb_spec late early),
    (Nat.ltb_spec early high), (Nat.ltb_spec late high),
    (Nat.ltb_spec early late), (Nat.ltb_spec high late); simpl;
    repeat split; intros; try done; try lia.
Qed.

(** C1. The era label is one of the three periods exactly when that period's
    indicator count is strictly greater than both other counts; when the
    largest count is shared (all three zero included) the label is General
    Modernism. *)
Theorem era_strict_majority `{Builtins} (paper : json) (content : pystr)
    (early high late : nat) :
  era_content paper = Ok content →
  era_counts content = (early, high, late) →
  (categorize_by_era paper = Ok Early_Modernism ↔
     (early > high ∧ early > late)%nat) ∧
  (categorize_by_era paper = Ok High_Modernism ↔
     (high > early ∧ high > late)%nat) ∧
  (categorize_by_era paper = Ok Late_Modernism ↔
     (late > early ∧ late > high)%nat) ∧
  (categorize_by_era paper = Ok General_Modernism ↔
     ((early = high ∧ late ≤ early) ∨ (early = late ∧ high ≤ early) ∨
      (high = late ∧ early ≤ high))%nat).
Proof.
  intros Hcontent Hcounts. unfold categorize_by_era.
  rewrite Hcontent. unfold mbind, result_bind. rewrite Hcounts.
  destruct (era_of_counts_cases early high late) as (He & Hh & Hl & Hg).
  rewrite <-He, <-Hh, <-Hl, <-Hg.
  repeat split; congruence.
Qed.

Lemma era_strict_majority_witness :
  @categorize_by_era ascii_builtins tied_paper = Ok General_Modernism.
Proof.
  eapply (@era_strict_majority ascii_builtins tied_paper _ 2 2 0).
  - vm_compute. reflexivity.
  - vm_compute. reflexivity.
  - left. split; [reflexivity | lia].
Defined.

(** ** Records of the expected shape never raise *)

Lemma as_strs_typed xs : forallb is_str xs = true → returns (as_strs xs).
Proof.
  induction xs as [|[| | |s| |] xs IH]; simpl; try done.
  - by exists [].
  - intros [ss ->]%IH. bind_simpl. by eexists.
Qed.

Lemma py_join_typed sep v :
  absent_or (is_list_of is_str) (Some v) = true → returns (py_join sep v).
Proof.
  destruct v as [| | | |xs|]; try done. simpl.
  intros [ss Hss]%as_strs_typed. unfold py_join. simpl. rewrite Hss.
  bind_simpl. by eexists.
Qed.

Section typed_records.
Context `{Builtins}.

Lemma text_typed_era_content paper :
  text_typed paper = true → returns (era_content paper).
Proof.
  unfold text_typed, bibjson_of, era_content, bib_field, py_get.
  destruct paper as [| | | | |kvs]; try done.
  destruct (default empty_dict (assoc (lit "bibjson") kvs))
    as [| | | | |b]; try done.
  rewrite !andb_true_iff. intros [[[Ht Ha] Hk] _]. bind_simpl.
  destruct (assoc (lit "abstract") b) as [[]|]; try done;
    destruct (assoc (lit "title") b) as [[]|]; try done;
    bind_simpl.
  all: destruct (assoc (lit "keywords") b) as [k|]; simpl default.
  all: try (apply (py_join_typed (lit " ")) in Hk as [joined ->]).
  all: bind_simpl; by eexists.
Qed.

Lemma text_typed_medium_content paper :
  text_typed paper = true → returns (medium_content paper).
Proof.
  unfold text_typed, bibjson_of, medium_content, bib_field, py_get.
  destruct paper as [| | | | |kvs]; try done.
  destruct (default empty_dict (assoc (lit "bibjson") kvs))
    as [| | | | |b]; try done.
  rewrite !andb_true_iff. intros [_ Hj]. bind_simpl.
  destruct (assoc (lit "journal") b) as [[| | | | |j]|]; try done;
    simpl in *; bind_simpl; [|by eexists].
  apply andb_true_iff in Hj as [Ht Hp].
  destruct (assoc (lit "title") j) as [[]|]; try done;
    destruct (assoc (lit "publisher") j) as [[]|]; try done;
    simpl; bind_simpl; by eexists.
Qed.

Lemma text_typed_classify paper :
  text_typed paper = true →
  ∃ era medium, categorize_by_era paper = Ok era ∧
    categorize_by_medium paper = Ok medium ∧
    classify paper = Ok (era, medium) ∧
    era ∈ era_labels ∧ medium ∈ medium_labels.
Proof.
  intros Ht. unfold classify, categorize_by_era, categorize_by_medium.
  destruct (text_typed_era_content _ Ht) as [c1 ->].
  destruct (text_typed_medium_content _ Ht) as [c2 ->].
  bind_simpl. eexists _, _. repeat split.
  - apply era_of_counts_label.
  - apply medium_of_content_label.
Qed.
End typed_records.

(** C2, amended. A record whose text fields are absent or of their type
    gets exactly one era label, out of four, and exactly one medium label,
    out of three; the three period labels carry their decades. *)
Theorem classify_one_label_each `{Builtins} (paper : json) :
  text_typed paper = true →
  ∃ era medium,
    classify paper = Ok (era, medium) ∧
    era ∈ era_labels ∧ medium ∈ medium_labels ∧
    (∀ labels, classify paper = Ok labels → labels = (era, medium)) ∧
    NoDup era_labels ∧ length era_labels = 4%nat ∧
    NoDup medium_labels ∧ length medium_labels = 3%nat ∧
    era_labels = [lit "Early Modernism (1890s-1910s)";
                  lit "High Modernism (1910s-1920s)";
                  lit "Late Modernism (1930s-1950s)";
                  lit "General Modernism"] ∧
    medium_labels = [lit "Academic Journal"; lit "Literary Magazine";
                     lit "Other Publication"].
Proof.
  intros (era & medium & _ & _ & Hc & He & Hm)%text_typed_classify.
  exists era, medium. rewrite Hc.
  repeat split; try done.
  - by intros labels [= <-].
  - apply era_labels_NoDup.
  - apply medium_labels_NoDup.
Qed.

Lemma classify_one_label_each_witness :
  ∃ era medium,
    @classify ascii_builtins tied_paper = Ok (era, medium) ∧
    era ∈ era_labels ∧ medium ∈ medium_labels.
Proof.
  destruct (@classify_one_label_each ascii_builtins tied_paper)
    as (era & medium & Hc & He & Hm & _).
  - vm_compute. reflexivity.
  - by exists era, medium.
Defined.

(** C2 does not hold for every record: on the record whose abstract is
    [null] no label is returned, whatever the interpreter's tables are. *)
Lemma classify_raises_on_null_abstract :
  ¬ ∃ B : Builtins, returns (@classify B null_abstract_paper).
Proof. intros (B & labels & Hlabels). discriminate Hlabels. Qed.

(** C3. When the journal text contains an academic word the medium is
    Academic Journal, whether or not a literary word occurs as well; the
    literary words decide only when no academic word occurs. *)
Theorem academic_takes_precedence `{Builtins} (paper : json) (content : pystr) :
  medium_content paper = Ok content →
  ((∃ word, word ∈ academic_words ∧ occurs_in word content) →
   categorize_by_medium paper = Ok Academic_Journal) ∧
  (categorize_by_medium paper = Ok Literary_Magazine ↔
   (¬ ∃ word, word ∈ academic_words ∧ occurs_in word content) ∧
   ∃ word, word ∈ literary_words ∧ occurs_in word content) ∧
  (categorize_by_medium paper = Ok Other_Publication ↔
   (¬ ∃ word, word ∈ academic_words ∧ occurs_in word content) ∧
   ¬ ∃ word, word ∈ literary_words ∧ occurs_in word content).
Proof.
  intros Hcontent. unfold categorize_by_medium. rewrite Hcontent.
  bind_simpl. unfold medium_of_content.
  rewrite <-!any_word_in_spec.
  destruct (any_word_in academic_words content),
    (any_word_in literary_words content);
    repeat split; try done; intros; try by intuition.
Qed.

Lemma academic_takes_precedence_witness :
  @categorize_by_medium ascii_builtins both_words_paper = Ok Academic_Journal.
Proof.
  eapply (@academic_takes_precedence ascii_builtins both_words_paper).
  - vm_compute. reflexivity.
  - exists (lit "review"). split.
    + unfold academic_words. set_solver.
    + apply str_contains_spec. vm_compute. reflexivity.
Defined.

(** The classifiers on a few records of ASCII text. *)

Example eliot_waste_land_is_high :
  @categorize_by_era ascii_builtins
    (paper_with [(lit "title", JStr (lit "T.S. Eliot and The Waste Land"))]) =
  Ok High_Modernism.
Proof. vm_compute. reflexivity. Qed.

Example wilde_aestheticism_is_early :
  @categorize_by_era ascii_builtins
    (paper_with [(lit "abstract", JStr (lit "Oscar Wilde"));
                 (lit "keywords", JArr [JStr (lit "Aestheticism")])]) =
  Ok Early_Modernism.
Proof. vm_compute. reflexivity. Qed.

Example journal_studies_is_academic :
  @categorize_by_medium ascii_builtins
    (paper_with [(lit "journal", JObj [
       (lit "title", JStr (lit "Journal of Modern Literature Studies"))])]) =
  Ok Academic_Journal.
Proof. vm_compute. reflexivity. Qed.

Example poetry_letters_is_literary :
  @categorize_by_medium ascii_builtins
    (paper_with [(lit "journal", JObj [
       (lit "title", JStr (lit "Poetry and Letters"))])]) =
  Ok Literary_Magazine.
Proof. vm_compute. reflexivity. Qed.

Lemma absent_or_list P o :
  absent_or (is_list_of P) o = true →
  ∃ xs, default empty_list o = JArr xs ∧ forallb P xs = true.
Proof.
  destruct o as [[| | | |xs|]|]; try done; simpl; intros Hxs.
  - by exists xs.
  - by exists [].
Qed.

Lemma absent_or_dict o :
  absent_or is_dict o = true → ∃ kvs, default empty_dict o = JObj kvs.
Proof. destruct o as [[| | | | |kvs]|]; try done; by eexists. Qed.

Lemma get_each_typed k xs :
  forallb is_dict xs = true → returns (get_each k xs).
Proof.
  induction xs as [|[| | | | |kvs] xs IH]; simpl; try done.
  - by exists [].
  - intros [vs ->]%IH. bind_simpl. by eexists.
Qed.

Lemma first_doi_typed ids :
  forallb (entry_typed "doi" "id") ids = true → returns (first_doi ids).
Proof.
  induction ids as [|[| | | | |kvs] ids IH]; simpl; try done.
  - by exists JNull.
  - rewrite andb_true_iff. intros [Hid Hids]. bind_simpl.
    destruct (py_eq_str _ _); [|by apply IH].
    apply bool_decide_eq_true in Hid as [v Hv].
    rewrite Hv. by exists v.
Qed.

Lemma fulltext_urls_typed links :
  forallb (entry_typed "fulltext" "url") links = true →
  returns (fulltext_urls links).
Proof.
  induction links as [|[| | | | |kvs] links IH]; simpl; try done.
  - by exists [].
  - rewrite andb_true_iff. intros [Hurl [urls Hurls]%IH]. bind_simpl.
    destruct (py_eq_str _ _); [|by exists urls].
    apply bool_decide_eq_true in Hurl as [v Hv].
    rewrite Hv, Hurls. bind_simpl. by eexists.
Qed.

(** A record of the expected shape yields its metadata; a field that is
    missing comes out as the empty string or the empty list. *)
Lemma record_typed_extract paper :
  record_typed paper = true →
  ∃ b md ids,
    bibjson_of paper = Some b ∧
    extract_metadata_for_analysis paper = Ok md ∧
    md_title md = default empty_str (assoc (lit "title") b) ∧
    md_year md = default empty_str (assoc (lit "year") b) ∧
    md_keywords md = default empty_list (assoc (lit "keywords") b) ∧
    md_abstract md = default empty_str (assoc (lit "abstract") b) ∧
    default empty_list (assoc (lit "identifier") b) = JArr ids ∧
    forallb (entry_typed "doi" "id") ids = true ∧
    first_doi ids = Ok (md_doi md).
Proof.
  unfold record_typed, lists_typed, text_typed, bibjson_of,
    extract_metadata_for_analysis, py_get.
  destruct paper as [| | | | |kvs]; try done.
  destruct (default empty_dict (assoc (lit "bibjson") kvs))
    as [| | | | |b]; try done.
  rewrite !andb_true_iff. intros [_ [[[[Ha Hj] Hi] Hl] Hs]]. bind_simpl.
  apply absent_or_list in Ha
    as (authors & -> & [names Hn]%(get_each_typed "name")).
  apply absent_or_dict in Hj as (j & ->).
  apply absent_or_list in Hi as (ids & Hi & Hids). rewrite Hi.
  destruct (first_doi_typed _ Hids) as [doi Hdoi].
  apply absent_or_list in Hl as (links & -> & [urls Hu]%fulltext_urls_typed).
  apply absent_or_list in Hs
    as (subjects & -> & [terms Ht]%(get_each_typed "term")).
  simpl py_iter. bind_simpl. rewrite Hn, Hdoi, Hu, Ht. bind_simpl.
  by eexists b, _, ids.
Qed.




(** ** The extracted DOI *)

Lemma first_doi_skips before rest :
  forallb (entry_typed "doi" "id") before = true →
  Forall (λ entry, has_type "doi" entry = false) before →
  first_doi (before ++ rest) = first_doi rest.
Proof.
  intros Hdicts Htypes. revert Hdicts.
  induction Htypes as [|[| | | | |kvs] before Hty _ IH]; simpl in *; try done.
  rewrite andb_true_iff. intros [_ Hdicts]. bind_simpl.
  rewrite Hty. by apply IH.
Qed.

(** C10. The [doi] of the metadata is the [id] of the first identifier entry
    whose [type] is the string [doi]; entries of another type before it are
    passed over, and without such an entry the [doi] is [None]. *)
Theorem doi_is_first_doi_identifier (paper : json) (b : list (pystr * json))
    (ids : list json) :
  record_typed paper = true →
  bibjson_of paper = Some b →
  default empty_list (assoc (lit "identifier") b) = JArr ids →
  ∃ md,
    extract_metadata_for_analysis paper = Ok md ∧
    (∀ before entry after v,
       ids = before ++ JObj entry :: after →
       Forall (λ e, has_type "doi" e = false) before →
       assoc (lit "type") entry = Some (JStr (lit "doi")) →
       assoc (lit "id") entry = Some v →
       md_doi md = v) ∧
    (Forall (λ e, has_type "doi" e = false) ids → md_doi md = JNull).
Proof.
  intros Hty Hb Hids.
  destruct (record_typed_extract _ Hty)
    as (b' & md & ids' & Hb' & Hmd & _ & _ & _ & _ & Hids' & Hdicts & Hdoi).
  assert (b' = b) as -> by congruence.
  assert (ids' = ids) as -> by congruence.
  exists md. split; [done|].
  split.
  - intros before entry after v -> Hbefore Htype Hid.
    rewrite forallb_app in Hdicts. apply andb_true_iff in Hdicts as [Hdicts _].
    rewrite first_doi_skips in Hdoi by done.
    simpl in Hdoi. rewrite Htype in Hdoi. simpl in Hdoi.
    rewrite Hid in Hdoi. congruence.
  - intros Hnone.
    rewrite <-(app_nil_r ids), first_doi_skips in Hdoi by done.
    simpl in Hdoi. congruence.
Qed.

Lemma doi_is_first_doi_identifier_witness :
  ∃ md, extract_metadata_for_analysis doi_paper = Ok md ∧
        md_doi md = JStr (lit "10.1/first").
Proof.
  destruct (doi_is_first_doi_identifier doi_paper
              [(lit "identifier", JArr [
                 JObj [(lit "type", JStr (lit "eissn")); (lit "id", JStr (lit "2041-1022"))];
                 JObj [(lit "type", JStr (lit "DOI")); (lit "id", JStr (lit "10.1/upper"))];
                 JObj [(lit "type", JStr (lit "doi")); (lit "id", JStr (lit "10.1/first"))];
                 JObj [(lit "type", JStr (lit "doi")); (lit "id", JStr (lit "10.1/second"))]])]
              _ eq_refl eq_refl eq_refl) as (md & Hmd & Hfirst & _).
  exists md. split; [exact Hmd|].
  apply (Hfirst
    [JObj [(lit "type", JStr (lit "eissn")); (lit "id", JStr (lit "2041-1022"))];
     JObj [(lit "type", JStr (lit "DOI")); (lit "id", JStr (lit "10.1/upper"))]]
    [(lit "type", JStr (lit "doi")); (lit "id", JStr (lit "10.1/first"))]
    [JObj [(lit "type", JStr (lit "doi")); (lit "id", JStr (lit "10.1/second"))]]).
  - reflexivity.
  - repeat constructor.
  - reflexivity.
  - reflexivity.
Defined.

(** ** Records of ASCII text *)

Lemma ascii_lower_is_ascii s :
  forallb is_ascii_cp s = true → forallb is_ascii_cp (ascii_lower s) = true.
Proof.
  induction s as [|c s IH]; simpl; [done|].
  rewrite !andb_true_iff. intros [Hc Hs]. split; [|by apply IH].
  unfold is_ascii_cp, ascii_lower_cp in *. apply N.ltb_lt in Hc.
  apply N.ltb_lt. destruct (N.leb_spec 65 c), (N.leb_spec c 90); simpl; lia.
Qed.

Lemma bib_field_returns paper k k' dflt dflt' :
  returns (bib_field paper k dflt) → returns (bib_field paper k' dflt').
Proof.
  unfold bib_field, py_get. destruct paper as [| | | | |kvs]; try done.
  bind_simpl. destruct (default _ _); try done. intros _. by eexists.
Qed.

Section ascii_records.
Context `{Builtins}.
Hypothesis lower_ascii : lower_on_ascii.

Lemma era_content_ascii paper title abstract k joined :
  bib_field paper "title" empty_str = Ok (JStr title) →
  bib_field paper "abstract" empty_str = Ok (JStr abstract) →
  bib_field paper "keywords" empty_list = Ok k →
  py_join (lit " ") k = Ok joined →
  forallb is_ascii_cp (title ++ abstract ++ joined) = true →
  era_content paper =
    Ok (ascii_lower (ascii_lower title ++ lit " " ++ ascii_lower abstract ++
                     lit " " ++ ascii_lower joined)).
Proof.
  intros Ht Ha Hk Hj Hascii.
  rewrite !forallb_app, !andb_true_iff in Hascii.
  destruct Hascii as (Hat & Haa & Haj).
  unfold era_content. rewrite Ha, Hk, Ht. bind_simpl. rewrite Hj. bind_simpl.
  destruct (bib_field_returns paper "title" "year" empty_str empty_str)
    as [year ->]; [by eexists|].
  bind_simpl. unfold py_lower. bind_simpl.
  rewrite (lower_ascii joined), (lower_ascii title),
    (lower_ascii abstract) by done.
  rewrite lower_ascii; [done|].
  rewrite !forallb_app, !andb_true_iff.
  repeat split; try reflexivity; by apply ascii_lower_is_ascii.
Qed.

Lemma medium_content_ascii paper j journal_title publisher :
  bib_field paper "journal" empty_dict = Ok (JObj j) →
  default empty_str (assoc (lit "title") j) = JStr journal_title →
  default empty_str (assoc (lit "publisher") j) = JStr publisher →
  forallb is_ascii_cp (journal_title ++ publisher) = true →
  medium_content paper =
    Ok (ascii_lower journal_title ++ lit " " ++ ascii_lower publisher).
Proof.
  intros Hj Ht Hp Hascii.
  rewrite forallb_app, andb_true_iff in Hascii. destruct Hascii as [Hat Hap].
  unfold medium_content. rewrite Hj. bind_simpl. unfold py_get.
  rewrite Ht, Hp. unfold py_lower. bind_simpl. by rewrite !lower_ascii.
Qed.
End ascii_records.

(** C8. The record whose fields are all empty strings and empty lists is
    General Modernism and Other Publication, and so is the record with no
    field at all. *)
Theorem empty_record_general_other `{Builtins} :
  lower_on_ascii →
  classify all_empty_paper = Ok (General_Modernism, Other_Publication) ∧
  classify (JObj []) = Ok (General_Modernism, Other_Publication).
Proof.
  intros Hlow. unfold classify, categorize_by_era, categorize_by_medium.
  rewrite (era_content_ascii Hlow all_empty_paper [] [] empty_list [])
    by reflexivity.
  rewrite (era_content_ascii Hlow (JObj []) [] [] empty_list [])
    by reflexivity.
  rewrite (medium_content_ascii Hlow all_empty_paper
             [(lit "title", empty_str); (lit "publisher", empty_str);
              (lit "country", empty_str)] [] []) by reflexivity.
  rewrite (medium_content_ascii Hlow (JObj []) [] [] []) by reflexivity.
  split; vm_compute; reflexivity.
Qed.

Lemma empty_record_general_other_witness :
  @classify ascii_builtins all_empty_paper =
    Ok (General_Modernism, Other_Publication).
Proof.
  apply (@empty_record_general_other ascii_builtins).
  intros s _. reflexivity.
Defined.

(** C9. The title and the abstract are joined by one space before the
    search, so [waste land] is found in a record whose title ends in [waste]
    and whose abstract starts with [land], although neither field contains
    it; that one match makes the record High Modernism. *)
Theorem waste_land_across_fields `{Builtins} :
  lower_on_ascii →
  ∃ title abstract content,
    bib_field waste_land_paper "title" empty_str =
      Ok (JStr (title ++ lit "waste")) ∧
    bib_field waste_land_paper "abstract" empty_str =
      Ok (JStr (lit "land" ++ abstract)) ∧
    ¬ occurs_in (lit "waste land") (str_lower (title ++ lit "waste")) ∧
    ¬ occurs_in (lit "waste land") (str_lower (lit "land" ++ abstract)) ∧
    era_content waste_land_paper = Ok content ∧
    occurs_in (lit "waste land") content ∧
    era_counts content = (0, 1, 0)%nat ∧
    categorize_by_era waste_land_paper = Ok High_Modernism.
Proof.
  intros Hlow.
  exists (lit "A century of "), (lit " reform in interwar Britain").
  exists (lit "a century of waste land reform in interwar britain ").
  split; [reflexivity|]. split; [reflexivity|].
  rewrite !Hlow by reflexivity.
  unfold categorize_by_era.
  rewrite (era_content_ascii Hlow waste_land_paper
             (lit "A century of waste")
             (lit "land reform in interwar Britain") empty_list [])
    by reflexivity.
  rewrite <-!str_contains_spec.
  repeat split; try (vm_compute; congruence).
Qed.

Lemma waste_land_across_fields_witness :
  @categorize_by_era ascii_builtins waste_land_paper = Ok High_Modernism.
Proof.
  destruct (@waste_land_across_fields ascii_builtins)
    as (title & abstract & content & _ & _ & _ & _ & _ & _ & _ & Hera).
  - intros s _. reflexivity.
  - exact Hera.
Defined.

(** ** The labels depend on the text fields only *)

Section field_reads.
Context `{Builtins}.

Lemma categorize_by_era_reads paper :
  categorize_by_era paper =
  era_from (bib_field paper "title" empty_str)
           (bib_field paper "abstract" empty_str)
           (bib_field paper "keywords" empty_list).
Proof.
  unfold categorize_by_era, era_content, era_from, bib_field, py_get.
  destruct paper as [| | | | |kvs]; try reflexivity. bind_simpl.
  destruct (default empty_dict (assoc (lit "bibjson") kvs))
    as [| | | | |b]; try reflexivity.
  bind_simpl.
  destruct (py_lower (default empty_str (assoc (lit "abstract") b)));
    [|reflexivity].
  bind_simpl. destruct (py_join _ _) as [joined|]; [|reflexivity].
  bind_simpl. destruct (py_lower _); reflexivity.
Qed.

Lemma categorize_by_medium_reads paper :
  categorize_by_medium paper =
  medium_from (journal_field paper "title") (journal_field paper "publisher").
Proof.
  unfold categorize_by_medium, medium_content, medium_from, journal_field.
  destruct (bib_field paper "journal" empty_dict) as [j|]; [|reflexivity].
  bind_simpl.
  destruct (py_get j (lit "title") empty_str) as [jt|]; [|reflexivity].
  bind_simpl.
  destruct (py_lower jt) as [journal_title|]; [|reflexivity]. bind_simpl.
  destruct (py_get j (lit "publisher") empty_str) as [pb|]; [|reflexivity].
  bind_simpl. destruct (py_lower pb); reflexivity.
Qed.

Lemma analyze_paper_Ok st paper st' :
  analyze_paper st paper = Ok st' ↔
  ∃ era medium md,
    classify paper = Ok (era, medium) ∧
    extract_metadata_for_analysis paper = Ok md ∧
    st' = {| era_categories := bucket_append era md (era_categories st);
             medium_categories :=
               bucket_append medium md (medium_categories st);
             all_papers_metadata :=
               all_papers_metadata st ++
               [{| cl_metadata := md; cl_era := era; cl_medium := medium |}] |}.
Proof.
  unfold analyze_paper, classify.
  destruct (categorize_by_era paper) as [era|]; bind_simpl.
  - destruct (categorize_by_medium paper) as [medium|]; bind_simpl.
    + destruct (extract_metadata_for_analysis paper) as [md|]; bind_simpl.
      * split; [intros [= <-]; by eexists _, _, _|].
        by intros (? & ? & ? & [= <- <-] & [= <-] & ->).
      * split; [done | by intros (? & ? & ? & _ & ? & _)].
    + split; [done | by intros (? & ? & ? & ? & _)].
  - split; [done | by intros (? & ? & ? & ? & _)].
Qed.
End field_reads.

(** C6. The labels of a record are a function of its five text fields: two
    records that agree on them get the same labels, and the labels the loop
    records for a paper are these, whatever the accumulators held before. *)
Theorem classification_deterministic `{Builtins} (p1 p2 : json)
    (st1 st2 st1' st2' : analysis) :
  text_fields p1 = text_fields p2 →
  classify p1 = classify p2 ∧
  (analyze_paper st1 p1 = Ok st1' →
   analyze_paper st2 p2 = Ok st2' →
   last_labels st1' = last_labels st2' ∧
   classify p1 = from_option Ok (Raise KeyError) (last_labels st1')).
Proof.
  intros [= Ht Ha Hk Hjt Hjp].
  assert (classify p1 = classify p2) as Hsame.
  { unfold classify.
    rewrite !categorize_by_era_reads, !categorize_by_medium_reads.
    by rewrite Ht, Ha, Hk, Hjt, Hjp. }
  split; [done|].
  intros (e1 & m1 & md1 & Hc1 & _ & ->)%analyze_paper_Ok
         (e2 & m2 & md2 & Hc2 & _ & ->)%analyze_paper_Ok.
  unfold last_labels. simpl. rewrite !last_snoc. simpl.
  split; congruence.
Qed.

Lemma classification_deterministic_witness :
  ∃ st1' st2',
    @analyze_paper ascii_builtins no_papers tied_paper = Ok st1' ∧
    @analyze_paper ascii_builtins st1' tied_paper = Ok st2' ∧
    last_labels st1' = last_labels st2'.
Proof.
  destruct (@analyze_paper ascii_builtins no_papers tied_paper)
    as [st1'|] eqn:H1; [|vm_compute in H1; discriminate H1].
  destruct (@analyze_paper ascii_builtins st1' tied_paper)
    as [st2'|] eqn:H2.
  - exists st1', st2'. split; [reflexivity|]. split; [exact H2|].
    exact (proj1 (proj2 (@classification_deterministic ascii_builtins
             tied_paper tied_paper no_papers st1' st1' st2' eq_refl) H1 H2)).
  - apply (proj1 (analyze_paper_Ok _ _ _)) in H1
      as (era & medium & md & Hc & Hmd & _).
    unfold analyze_paper in H2. unfold classify in Hc.
    destruct (categorize_by_era tied_paper); [|discriminate Hc].
    destruct (categorize_by_medium tied_paper); [|discriminate Hc].
    rewrite Hmd in H2. discriminate H2.
Defined.

(** ** The buckets *)

Lemma grouped_empty key : grouped key [] ∅.
Proof.
  split.
  - intros label. by rewrite lookup_empty.
  - by rewrite map_to_list_empty.
Qed.

Lemma bucket_append_concat (label : pystr) (x : metadata)
    (d : gmap pystr (list metadata)) :
  concat (snd <$> map_to_list (bucket_append label x d)) ≡ₚ
  concat (snd <$> map_to_list d) ++ [x].
Proof.
  unfold bucket_append. destruct (d !! label) as [bucket|] eqn:Hd; simpl.
  - rewrite <-insert_delete_eq.
    rewrite map_to_list_insert by apply lookup_delete_eq.
    rewrite <-(map_to_list_delete d label bucket Hd).
    simpl. rewrite <-!(assoc_L (++)).
    apply Permutation_app_head, Permutation_app_comm.
  - rewrite map_to_list_insert by done. simpl.
    apply Permutation_cons_append.
Qed.

Lemma grouped_append (key : classified → pystr) (cs : list classified)
    (d : gmap pystr (list metadata)) (c : classified) :
  grouped key cs d →
  grouped key (cs ++ [c]) (bucket_append (key c) (cl_metadata c) d).
Proof.
  intros [Hbuckets Hall]. split.
  - intros label. unfold bucket_append.
    rewrite filter_app, fmap_app, <-Hbuckets.
    destruct (decide (key c = label)) as [<-|Hne].
    + rewrite lookup_insert_eq. simpl.
      by rewrite filter_cons_True.
    + rewrite lookup_insert_ne by done.
      rewrite filter_cons_False by done. by rewrite app_nil_r.
  - rewrite bucket_append_concat, fmap_app, Hall. done.
Qed.

Section buckets.
Context `{Builtins}.

(** The loop keeps both groupings and appends one classified record per
    paper. *)
Lemma analyze_papers_grouped papers : ∀ st st',
  analyze_papers st papers = Ok st' →
  grouped cl_era (all_papers_metadata st) (era_categories st) →
  grouped cl_medium (all_papers_metadata st) (medium_categories st) →
  ∃ cs,
    all_papers_metadata st' = all_papers_metadata st ++ cs ∧
    Forall2 (λ paper c,
               classify paper = Ok (cl_era c, cl_medium c) ∧
               extract_metadata_for_analysis paper = Ok (cl_metadata c))
            papers cs ∧
    grouped cl_era (all_papers_metadata st') (era_categories st') ∧
    grouped cl_medium (all_papers_metadata st') (medium_categories st').
Proof.
  induction papers as [|paper papers IH]; intros st st' Hrun He Hm;
    simpl in Hrun.
  - injection Hrun as <-. exists []. rewrite app_nil_r.
    split; [done|]. split; [constructor|]. done.
  - apply bind_Ok in Hrun as (st1 & Hstep & Hrun).
    apply analyze_paper_Ok in Hstep as (era & medium & md & Hc & Hmd & ->).
    set (c := {| cl_metadata := md; cl_era := era; cl_medium := medium |})
      in *.
    apply IH in Hrun as (cs & Hall & Hcs & He' & Hm').
    + exists (c :: cs). split.
      { rewrite Hall. simpl. by rewrite <-(assoc_L (++)). }
      split; [|done]. by constructor.
    + apply (grouped_append cl_era _ _ c He).
    + apply (grouped_append cl_medium _ _ c Hm).
Qed.

Lemma analyze_papers_typed papers : ∀ st,
  Forall (λ paper, record_typed paper = true) papers →
  returns (analyze_papers st papers).
Proof.
  induction papers as [|paper papers IH]; intros st Hty; simpl.
  - by exists st.
  - apply Forall_cons in Hty as [Hp Hps].
    destruct (record_typed_extract _ Hp) as (b & md & ids & _ & Hmd & _).
    apply andb_true_iff in Hp as [Htext _].
    destruct (text_typed_classify _ Htext)
      as (era & medium & Hera & Hmed & _).
    unfold analyze_paper. rewrite Hera, Hmed, Hmd. bind_simpl.
    by apply IH.
Qed.
End buckets.

(** C7. On records of the expected shape the loop returns; and whenever it
    returns, every paper has yielded one classified record, the bucket of a
    label holds exactly the records carrying that label, in input order, and
    the buckets taken together hold every record once.  The same holds for
    the medium buckets. *)
Theorem buckets_partition_input `{Builtins} (papers : list json) :
  (Forall (λ paper, record_typed paper = true) papers →
   returns (analyze_papers no_papers papers)) ∧
  ∀ st,
    analyze_papers no_papers papers = Ok st →
    Forall2 (λ paper c,
               classify paper = Ok (cl_era c, cl_medium c) ∧
               extract_metadata_for_analysis paper = Ok (cl_metadata c))
            papers (all_papers_metadata st) ∧
    (∀ label, default [] (era_categories st !! label) =
              cl_metadata <$>
                filter (λ c, cl_era c = label) (all_papers_metadata st)) ∧
    (∀ label, default [] (medium_categories st !! label) =
              cl_metadata <$>
                filter (λ c, cl_medium c = label) (all_papers_metadata st)) ∧
    concat (snd <$> map_to_list (era_categories st)) ≡ₚ
      cl_metadata <$> all_papers_metadata st ∧
    concat (snd <$> map_to_list (medium_categories st)) ≡ₚ
      cl_metadata <$> all_papers_metadata st.
Proof.
  split; [apply analyze_papers_typed|].
  intros st Hrun.
  destruct (analyze_papers_grouped papers no_papers st Hrun)
    as (cs & Hall & Hcs & [He1 He2] & [Hm1 Hm2]);
    try apply grouped_empty.
  simpl in Hall. by subst cs.
Qed.

Lemma buckets_partition_input_witness :
  ∃ st,
    @analyze_papers ascii_builtins no_papers
      [tied_paper; waste_land_paper; both_words_paper] = Ok st ∧
    length (all_papers_metadata st) = 3%nat ∧
    concat (snd <$> map_to_list (era_categories st)) ≡ₚ
      cl_metadata <$> all_papers_metadata st.
Proof.
  destruct (@buckets_partition_input ascii_builtins
              [tied_paper; waste_land_paper; both_words_paper])
    as [Hreturns Hparts].
  destruct Hreturns as [st Hrun]; [repeat constructor|].
  destruct (Hparts st Hrun) as (Hcs & _ & _ & He & _).
  exists st. split; [exact Hrun|]. split; [|exact He].
  symmetry. exact (Forall2_length _ _ _ Hcs).
Defined.

(** ** The year range *)

Section year_range_facts.
Context `{Builtins}.

(** A record whose year is a string that is not numeric is passed over. *)
Lemma numeric_years_skip (p : list (pystr * json)) s rest :
  assoc (lit "year") p = Some (JStr s) →
  py_isdigit (JStr s) = Ok false →
  numeric_years (JObj p :: rest) = numeric_years rest.
Proof.
  intros Hyear Hdigit. simpl. rewrite Hyear. bind_simpl.
  rewrite Hdigit. done.
Qed.

Lemma numeric_years_excludes before (p : list (pystr * json)) s after :
  assoc (lit "year") p = Some (JStr s) →
  py_isdigit (JStr s) = Ok false →
  numeric_years (before ++ JObj p :: after) = numeric_years (before ++ after).
Proof.
  intros Hyear Hdigit. induction before as [|q before IH].
  - by apply numeric_years_skip with s.
  - simpl. by rewrite IH.
Qed.

(** With a numeric year among the records the range is the least and the
    greatest of the numeric ones. *)
Lemma year_range_numeric results ps n ns :
  py_getitem results (lit "all_metadata") = Ok (JArr ps) →
  numeric_years ps = Ok (n :: ns) →
  year_range results = Ok (foldl Z.min n ns, foldl Z.max n ns).
Proof.
  intros Hall Hys. unfold year_range. rewrite Hall. simpl. bind_simpl.
  by rewrite Hys.
Qed.

(** Without one, [min] is given an empty sequence. *)
Lemma year_range_no_numeric results ps :
  py_getitem results (lit "all_metadata") = Ok (JArr ps) →
  numeric_years ps = Ok [] →
  year_range results = Raise ValueError.
Proof.
  intros Hall Hys. unfold year_range. rewrite Hall. simpl. bind_simpl.
  by rewrite Hys.
Qed.
End year_range_facts.

Example year_range_mixed :
  @year_range ascii_builtins
    (JObj [(lit "all_metadata", JArr [
       JObj [(lit "year", JStr (lit "1999"))];
       JObj [(lit "year", JStr (lit "n.d."))];
       JObj [(lit "year", empty_str)];
       JObj [(lit "year", JStr (lit "2015"))];
       JObj [(lit "year", JStr (lit "2003"))]])]) =
  Ok (1999, 2015)%Z.
Proof. vm_compute. reflexivity. Qed.

(** Records whose year is a string that is not numeric leave nothing. *)
Lemma numeric_years_none `{Builtins} (ps : list json) :
  Forall (λ p, ∃ kvs s, p = JObj kvs ∧
                        assoc (lit "year") kvs = Some (JStr s) ∧
                        py_isdigit (JStr s) = Ok false) ps →
  numeric_years ps = Ok [].
Proof.
  induction 1 as [|p ps (kvs & s & -> & Hyear & Hdigit) _ IH]; [done|].
  by rewrite (numeric_years_skip kvs s).
Qed.

(** C4, at a result file whose only record has the empty string for its
    year: the record is passed over, nothing is left for [min], and the
    year range raises. *)
Theorem year_range_raises_without_numeric_year `{Builtins} :
  (∃ ps, py_getitem undated_results (lit "all_metadata") = Ok (JArr ps) ∧
         numeric_years ps = Ok []) ∧
  year_range undated_results = Raise ValueError.
Proof.
  split.
  - eexists. split; [reflexivity|].
    apply numeric_years_none. repeat constructor.
    by eexists _, [].
  - eapply year_range_no_numeric; [reflexivity|].
    apply numeric_years_none, Forall_singleton. by eexists _, [].
Qed.

(** * Further properties of analyze_modernism.py *)

(** ** The era counts *)

Lemma count_indicators_same (indicators : list pystr) (c1 c2 : pystr) :
  (∀ i, i ∈ indicators → occurs_in i c1 ↔ occurs_in i c2) →
  count_indicators indicators c1 = count_indicators indicators c2.
Proof.
  unfold count_indicators. induction indicators as [|i indicators IH]; [done|].
  intros Hsame. rewrite !filter_cons.
  assert (str_contains i c1 = true ↔ str_contains i c2 = true) as Hi.
  { rewrite !str_contains_spec. apply Hsame. by left. }
  assert (length (filter (λ i, str_contains i c1 = true) indicators) =
          length (filter (λ i, str_contains i c2 = true) indicators)) as Hrest.
  { apply IH. intros j Hj. apply Hsame. by right. }
  repeat case_decide; simpl; try tauto; by rewrite Hrest.
Qed.

(** X1. An indicator counts once however often it occurs: the era label is
    decided by which indicators occur in the text, and no count exceeds the
    size of its list (8, 10 and 8). *)
Theorem era_decided_by_indicators_present `{Builtins} (p1 p2 : json)
    (c1 c2 : pystr) :
  era_content p1 = Ok c1 →
  era_content p2 = Ok c2 →
  (∀ i, i ∈ early_indicators ++ high_indicators ++ late_indicators →
        occurs_in i c1 ↔ occurs_in i c2) →
  categorize_by_era p1 = categorize_by_era p2 ∧
  (count_indicators early_indicators c1 ≤ 8)%nat ∧
  (count_indicators high_indicators c1 ≤ 10)%nat ∧
  (count_indicators late_indicators c1 ≤ 8)%nat.
Proof.
  intros H1 H2 Hsame. unfold categorize_by_era. rewrite H1, H2. bind_simpl.
  split.
  - unfold era_counts.
    rewrite (count_indicators_same early_indicators c1 c2),
      (count_indicators_same high_indicators c1 c2),
      (count_indicators_same late_indicators c1 c2); [done|..];
      intros i Hi; apply Hsame; rewrite !elem_of_app; auto.
  - unfold count_indicators.
    split; [|split]; etrans; try apply length_filter; done.
Qed.

Lemma era_decided_by_indicators_present_witness :
  @categorize_by_era ascii_builtins
    (paper_with [(lit "title", JStr (lit "Joyce"))]) =
  @categorize_by_era ascii_builtins
    (paper_with [(lit "title", JStr (lit "Joyce, Joyce and Joyce again"))]).
Proof.
  eapply (@era_decided_by_indicators_present ascii_builtins).
  - vm_compute. reflexivity.
  - vm_compute. reflexivity.
  - intros i Hi. rewrite <-!str_contains_spec.
    repeat (apply elem_of_cons in Hi as [->|Hi]; [by vm_compute|]).
    by apply elem_of_nil in Hi.
Defined.

(** ** Missing and ill-typed records *)

(** X2. A record without the [bibjson] key is treated as one with an empty
    [bibjson]: it is General Modernism and Other Publication, and its
    metadata is empty apart from the [id]. *)
Theorem missing_bibjson_is_empty_record `{Builtins}
    (kvs : list (pystr * json)) :
  lower_on_ascii →
  assoc (lit "bibjson") kvs = None →
  classify (JObj kvs) = Ok (General_Modernism, Other_Publication) ∧
  extract_metadata_for_analysis (JObj kvs) =
    Ok (empty_metadata (default JNull (assoc (lit "id") kvs))).
Proof.
  intros Hlow Hnone.
  assert (∀ k dflt, bib_field (JObj kvs) k dflt = Ok dflt) as Hfield.
  { intros k dflt. unfold bib_field, py_get. by rewrite Hnone. }
  split.
  - unfold classify, categorize_by_era, categorize_by_medium.
    rewrite (era_content_ascii Hlow (JObj kvs) [] [] empty_list [])
      by (try apply Hfield; reflexivity).
    rewrite (medium_content_ascii Hlow (JObj kvs) [] [] [])
      by (try apply Hfield; reflexivity).
    vm_compute. reflexivity.
  - unfold extract_metadata_for_analysis, py_get. by rewrite Hnone.
Qed.

Lemma missing_bibjson_is_empty_record_witness :
  @classify ascii_builtins (JObj [(lit "id", JStr (lit "0007"))]) =
    Ok (General_Modernism, Other_Publication) ∧
  extract_metadata_for_analysis (JObj [(lit "id", JStr (lit "0007"))]) =
    Ok (empty_metadata (JStr (lit "0007"))).
Proof.
  apply (@missing_bibjson_is_empty_record ascii_builtins
           [(lit "id", JStr (lit "0007"))]).
  - intros s _. reflexivity.
  - reflexivity.
Defined.

(** X3. A record that is not an object, or whose [bibjson] is there but is
    not an object, makes all three functions raise [AttributeError]. *)
Theorem non_dict_record_raises `{Builtins} (paper : json) :
  is_dict paper = false ∨
  (∃ kvs v, paper = JObj kvs ∧ assoc (lit "bibjson") kvs = Some v ∧
            is_dict v = false) →
  categorize_by_era paper = Raise AttributeError ∧
  categorize_by_medium paper = Raise AttributeError ∧
  extract_metadata_for_analysis paper = Raise AttributeError.
Proof.
  intros [Hpaper | (kvs & v & -> & Hbib & Hv)].
  - by destruct paper.
  - unfold categorize_by_era, era_content, categorize_by_medium,
      medium_content, extract_metadata_for_analysis, bib_field, py_get.
    rewrite Hbib. by destruct v.
Qed.

Lemma non_dict_record_raises_witness :
  @categorize_by_era ascii_builtins (JArr []) = Raise AttributeError ∧
  @categorize_by_medium ascii_builtins (JArr []) = Raise AttributeError ∧
  extract_metadata_for_analysis (JArr []) = Raise AttributeError.
Proof.
  apply (@non_dict_record_raises ascii_builtins (JArr [])).
  left. reflexivity.
Defined.

(** ** What the extraction copies *)

(** The extraction up to the identifiers. *)
Lemma extract_metadata_steps (kvs b : list (pystr * json))
    (authors names : list json) (j : list (pystr * json)) :
  default empty_dict (assoc (lit "bibjson") kvs) = JObj b →
  default empty_list (assoc (lit "author") b) = JArr authors →
  get_each "name" authors = Ok names →
  default empty_dict (assoc (lit "journal") b) = JObj j →
  extract_metadata_for_analysis (JObj kvs) =
    (identifier_seq ← py_iter (default empty_list (assoc (lit "identifier") b));
     doi ← first_doi identifier_seq;
     link_seq ← py_iter (default empty_list (assoc (lit "link") b));
     full_text_links ← fulltext_urls link_seq;
     subject_seq ← py_iter (default empty_list (assoc (lit "subject") b));
     subjects ← get_each "term" subject_seq;
     Ok {| md_id := default JNull (assoc (lit "id") kvs);
           md_title := default empty_str (assoc (lit "title") b);
           md_authors := names;
           md_year := default empty_str (assoc (lit "year") b);
           md_journal := default empty_str (assoc (lit "title") j);
           md_publisher := default empty_str (assoc (lit "publisher") j);
           md_country := default empty_str (assoc (lit "country") j);
           md_keywords := default empty_list (assoc (lit "keywords") b);
           md_abstract := default empty_str (assoc (lit "abstract") b);
           md_doi := doi; md_full_text_links := full_text_links;
           md_subjects := subjects |}).
Proof.
  intros Hb Ha Hn Hj. unfold extract_metadata_for_analysis, py_get.
  rewrite Hb. bind_simpl. rewrite Ha. simpl py_iter. bind_simpl.
  rewrite Hn. bind_simpl. rewrite Hj. bind_simpl. reflexivity.
Qed.

Lemma get_each_Forall2 k xs :
  forallb is_dict xs = true →
  ∃ vs, get_each k xs = Ok vs ∧
        Forall2 (λ x v, py_get x (lit k) empty_str = Ok v) xs vs.
Proof.
  induction xs as [|[| | | | |kvs] xs IH]; simpl; try done.
  - exists []. by split.
  - intros (vs & -> & Hvs)%IH. bind_simpl. eexists. split; [done|].
    by constructor.
Qed.

Lemma fulltext_urls_Forall2 links :
  forallb (entry_typed "fulltext" "url") links = true →
  ∃ urls, fulltext_urls links = Ok urls ∧
          Forall2 (λ link url, py_getitem link (lit "url") = Ok url)
                  (filter (λ link, has_type "fulltext" link = true) links)
                  urls.
Proof.
  induction links as [|[| | | | |kvs] links IH]; simpl; try done.
  - exists []. by split.
  - rewrite andb_true_iff. intros [Hurl (urls & Hurls & Hall)%IH].
    bind_simpl. rewrite filter_cons. simpl.
    destruct (py_eq_str _ _) eqn:Hty.
    + apply bool_decide_eq_true in Hurl as [v Hv].
      rewrite Hv, Hurls. bind_simpl.
      rewrite decide_True by done. eexists. split; [done|].
      constructor; [|done]. simpl. by rewrite Hv.
    + rewrite decide_False by done. by exists urls.
Qed.

(** X4. The extraction needs only the sequences and the journal to be
    well-formed.  The id, title, year, keywords and abstract are copied as
    they are, whatever their type, and the journal title, publisher and
    country come from the journal object; what is missing is the empty
    string, the empty list or, for the id, [None]. *)
Theorem extract_copies_fields (kvs b : list (pystr * json)) :
  bibjson_of (JObj kvs) = Some b →
  lists_typed (JObj kvs) = true →
  ∃ j md,
    default empty_dict (assoc (lit "journal") b) = JObj j ∧
    extract_metadata_for_analysis (JObj kvs) = Ok md ∧
    md_id md = default JNull (assoc (lit "id") kvs) ∧
    md_title md = default empty_str (assoc (lit "title") b) ∧
    md_year md = default empty_str (assoc (lit "year") b) ∧
    md_keywords md = default empty_list (assoc (lit "keywords") b) ∧
    md_abstract md = default empty_str (assoc (lit "abstract") b) ∧
    md_journal md = default empty_str (assoc (lit "title") j) ∧
    md_publisher md = default empty_str (assoc (lit "publisher") j) ∧
    md_country md = default empty_str (assoc (lit "country") j).
Proof.
  unfold lists_typed. intros Hb. rewrite Hb.
  unfold bibjson_of in Hb.
  destruct (default empty_dict (assoc (lit "bibjson") kvs))
    as [| | | | |b'] eqn:Hbib; try done.
  injection Hb as ->.
  rewrite !andb_true_iff. intros [[[[Ha Hj] Hi] Hl] Hs].
  apply absent_or_list in Ha as (authors & Ha & [names Hn]%(get_each_typed "name")).
  apply absent_or_dict in Hj as (j & Hj).
  apply absent_or_list in Hi as (ids & Hi & [doi Hdoi]%first_doi_typed).
  apply absent_or_list in Hl as (links & Hl & [urls Hu]%fulltext_urls_typed).
  apply absent_or_list in Hs as (subjects & Hs & [terms Ht]%(get_each_typed "term")).
  rewrite (extract_metadata_steps kvs b authors names j) by done.
  rewrite Hi, Hl, Hs. simpl py_iter. bind_simpl.
  rewrite Hdoi, Hu, Ht. bind_simpl.
  by eexists j, _.
Qed.

Lemma extract_copies_fields_witness :
  ∃ md, extract_metadata_for_analysis null_abstract_paper = Ok md ∧
        md_abstract md = JNull ∧ md_year md = empty_str.
Proof.
  destruct (extract_copies_fields
              [(lit "id", JStr (lit "0001"));
               (lit "bibjson",
                JObj [(lit "title", JStr (lit "Modernism"));
                      (lit "abstract", JNull)])]
              [(lit "title", JStr (lit "Modernism")); (lit "abstract", JNull)]
              eq_refl eq_refl)
    as (j & md & _ & Hmd & _ & _ & Hy & _ & Ha & _).
  exists md. split; [exact Hmd|]. split; [exact Ha | exact Hy].
Defined.

(** X5. The authors and the subjects of the metadata have one entry per
    author and subject of the record, in order: its [name], respectively its
    [term], or the empty string.  The full-text links are the [url] of
    exactly the links whose [type] is [fulltext], in order. *)
Theorem extract_sequences (kvs b : list (pystr * json))
    (authors links subjects : list json) :
  bibjson_of (JObj kvs) = Some b →
  lists_typed (JObj kvs) = true →
  default empty_list (assoc (lit "author") b) = JArr authors →
  default empty_list (assoc (lit "link") b) = JArr links →
  default empty_list (assoc (lit "subject") b) = JArr subjects →
  ∃ md,
    extract_metadata_for_analysis (JObj kvs) = Ok md ∧
    Forall2 (λ author name, py_get author (lit "name") empty_str = Ok name)
            authors (md_authors md) ∧
    Forall2 (λ link url, py_getitem link (lit "url") = Ok url)
            (filter (λ link, has_type "fulltext" link = true) links)
            (md_full_text_links md) ∧
    Forall2 (λ subject term, py_get subject (lit "term") empty_str = Ok term)
            subjects (md_subjects md).
Proof.
  unfold lists_typed. intros Hb. rewrite Hb.
  unfold bibjson_of in Hb.
  destruct (default empty_dict (assoc (lit "bibjson") kvs))
    as [| | | | |b'] eqn:Hbib; try done.
  injection Hb as ->.
  rewrite !andb_true_iff. intros [[[[Ha Hj] Hi] Hl] Hs] Hauthors Hlinks Hsubjects.
  apply absent_or_list in Ha as (authors' & Ha & Hn).
  apply absent_or_dict in Hj as (j & Hj).
  apply absent_or_list in Hi as (ids & Hi & [doi Hdoi]%first_doi_typed).
  apply absent_or_list in Hl as (links' & Hl & Hu).
  apply absent_or_list in Hs as (subjects' & Hs & Ht).
  assert (authors' = authors) as -> by congruence.
  assert (links' = links) as -> by congruence.
  assert (subjects' = subjects) as -> by congruence.
  apply (get_each_Forall2 "name") in Hn as (names & Hn & Hnames).
  apply fulltext_urls_Forall2 in Hu as (urls & Hu & Hurls).
  apply (get_each_Forall2 "term") in Ht as (terms & Ht & Hterms).
  rewrite (extract_metadata_steps kvs b authors names j) by done.
  rewrite Hi, Hl, Hs. simpl py_iter. bind_simpl.
  rewrite Hdoi, Hu, Ht. bind_simpl.
  by eexists.
Qed.

Lemma extract_sequences_witness :
  ∃ md,
    extract_metadata_for_analysis (JObj links_paper) = Ok md ∧
    md_authors md = [JStr (lit "A. Reader"); empty_str] ∧
    md_full_text_links md = [JStr (lit "f1"); JStr (lit "f2")].
Proof.
  destruct (extract_sequences links_paper links_bibjson _ _ _
              eq_refl eq_refl eq_refl eq_refl eq_refl)
    as (md & Hmd & Ha & Hl & _).
  exists md. split; [exact Hmd|].
  vm_compute in Hmd. injection Hmd as <-. split; reflexivity.
Defined.

(** ** The DOI generator *)

(** X6. When the first identifier of type [doi] has no [id], the extraction
    raises [KeyError], even if a later [doi] identifier has one. *)
Theorem doi_without_id_raises (kvs b : list (pystr * json))
    (before after : list json) (entry : list (pystr * json)) :
  bibjson_of (JObj kvs) = Some b →
  absent_or (is_list_of is_dict) (assoc (lit "author") b) = true →
  absent_or is_dict (assoc (lit "journal") b) = true →
  assoc (lit "identifier") b = Some (JArr (before ++ JObj entry :: after)) →
  forallb (entry_typed "doi" "id") before = true →
  Forall (λ e, has_type "doi" e = false) before →
  assoc (lit "type") entry = Some (JStr (lit "doi")) →
  assoc (lit "id") entry = None →
  extract_metadata_for_analysis (JObj kvs) = Raise KeyError.
Proof.
  intros Hb Ha Hj Hi Hbefore Hnone Hty Hid.
  unfold bibjson_of in Hb.
  destruct (default empty_dict (assoc (lit "bibjson") kvs))
    as [| | | | |b'] eqn:Hbib; try done.
  injection Hb as ->.
  apply absent_or_list in Ha as (authors & Ha & [names Hn]%(get_each_typed "name")).
  apply absent_or_dict in Hj as (j & Hj).
  rewrite (extract_metadata_steps kvs b authors names j) by done.
  rewrite Hi. simpl. bind_simpl.
  rewrite first_doi_skips by done.
  simpl. by rewrite Hty, Hid.
Qed.

Lemma doi_without_id_raises_witness :
  extract_metadata_for_analysis (JObj doi_without_id_paper) = Raise KeyError.
Proof.
  apply (doi_without_id_raises doi_without_id_paper _
    [JObj [(lit "type", JStr (lit "pissn")); (lit "id", JStr (lit "0026-7724"))]]
    [JObj [(lit "type", JStr (lit "doi")); (lit "id", JStr (lit "10.1/x"))]]
    [(lit "type", JStr (lit "doi"))] eq_refl);
    try reflexivity.
  repeat constructor.
Defined.

(** X7. The identifiers after the first one of type [doi] are never looked
    at: whatever they are, objects or not, the [doi] is the [id] of that
    first one. *)
Theorem doi_ignores_later_identifiers (kvs b : list (pystr * json))
    (before after : list json) (entry : list (pystr * json)) (v : json) :
  bibjson_of (JObj kvs) = Some b →
  absent_or (is_list_of is_dict) (assoc (lit "author") b) = true →
  absent_or is_dict (assoc (lit "journal") b) = true →
  absent_or (is_list_of (entry_typed "fulltext" "url"))
    (assoc (lit "link") b) = true →
  absent_or (is_list_of is_dict) (assoc (lit "subject") b) = true →
  assoc (lit "identifier") b = Some (JArr (before ++ JObj entry :: after)) →
  forallb (entry_typed "doi" "id") before = true →
  Forall (λ e, has_type "doi" e = false) before →
  assoc (lit "type") entry = Some (JStr (lit "doi")) →
  assoc (lit "id") entry = Some v →
  ∃ md, extract_metadata_for_analysis (JObj kvs) = Ok md ∧ md_doi md = v.
Proof.
  intros Hb Ha Hj Hl Hs Hi Hbefore Hnone Hty Hid.
  unfold bibjson_of in Hb.
  destruct (default empty_dict (assoc (lit "bibjson") kvs))
    as [| | | | |b'] eqn:Hbib; try done.
  injection Hb as ->.
  apply absent_or_list in Ha as (authors & Ha & [names Hn]%(get_each_typed "name")).
  apply absent_or_dict in Hj as (j & Hj).
  apply absent_or_list in Hl as (links & Hl & [urls Hu]%fulltext_urls_typed).
  apply absent_or_list in Hs as (subjects & Hs & [terms Ht]%(get_each_typed "term")).
  rewrite (extract_metadata_steps kvs b authors names j) by done.
  rewrite Hi, Hl, Hs. simpl py_iter. bind_simpl.
  rewrite first_doi_skips by done.
  simpl first_doi. rewrite Hty. simpl. rewrite Hid. bind_simpl.
  rewrite Hu, Ht. bind_simpl. by eexists.
Qed.

Lemma doi_ignores_later_identifiers_witness :
  ∃ md, extract_metadata_for_analysis (JObj doi_then_junk_paper) = Ok md ∧
        md_doi md = JStr (lit "10.1/x").
Proof.
  apply (doi_ignores_later_identifiers doi_then_junk_paper _ []
    [JNull; JStr (lit "doi"); JNum 7]
    [(lit "type", JStr (lit "doi")); (lit "id", JStr (lit "10.1/x"))]
    (JStr (lit "10.1/x")) eq_refl); try reflexivity.
  constructor.
Defined.

(** ** The loop of analyze_doaj_modernism *)

Lemma bucket_append_nonempty (label : pystr) (x : metadata)
    (d : gmap pystr (list metadata)) :
  (∀ l bucket, d !! l = Some bucket → bucket ≠ []) →
  ∀ l bucket, bucket_append label x d !! l = Some bucket → bucket ≠ [].
Proof.
  intros Hd l bucket. unfold bucket_append.
  destruct (decide (label = l)) as [->|Hne].
  - rewrite lookup_insert_eq. intros [= <-]. by destruct (default [] (d !! l)).
  - rewrite lookup_insert_ne by done. apply Hd.
Qed.

Section loop.
Context `{Builtins}.

Lemma analyze_papers_nonempty papers : ∀ st st',
  analyze_papers st papers = Ok st' →
  (∀ l bucket, era_categories st !! l = Some bucket → bucket ≠ []) →
  (∀ l bucket, medium_categories st !! l = Some bucket → bucket ≠ []) →
  (∀ l bucket, era_categories st' !! l = Some bucket → bucket ≠ []) ∧
  (∀ l bucket, medium_categories st' !! l = Some bucket → bucket ≠ []).
Proof.
  induction papers as [|paper papers IH]; intros st st' Hrun He Hm;
    simpl in Hrun.
  - by injection Hrun as <-.
  - apply bind_Ok in Hrun as (st1 & Hstep & Hrun).
    apply analyze_paper_Ok in Hstep as (era & medium & md & _ & _ & ->).
    apply (IH _ _ Hrun); simpl; by apply bucket_append_nonempty.
Qed.

Lemma classify_labels paper era medium :
  classify paper = Ok (era, medium) →
  era ∈ era_labels ∧ medium ∈ medium_labels.
Proof.
  unfold classify, categorize_by_era, categorize_by_medium.
  destruct (era_content paper) as [c1|]; [|done]. bind_simpl.
  destruct (medium_content paper) as [c2|]; [|done]. bind_simpl.
  intros [= <- <-]. split.
  - apply (era_of_counts_label (era_counts c1)).
  - apply (medium_of_content_label c2).
Qed.

(** A paper raises in one state of the accumulators exactly when it does in
    any other. *)
Lemma analyze_paper_Raise st st' paper e :
  analyze_paper st paper = Raise e → analyze_paper st' paper = Raise e.
Proof.
  unfold analyze_paper.
  destruct (categorize_by_era paper); [|done]. bind_simpl.
  destruct (categorize_by_medium paper); [|done]. bind_simpl.
  by destruct (extract_metadata_for_analysis paper).
Qed.

Lemma analyze_papers_app st before rest :
  analyze_papers st (before ++ rest) =
  analyze_papers st before ≫= λ st1, analyze_papers st1 rest.
Proof.
  revert st. induction before as [|paper before IH]; intros st; [done|].
  simpl. destruct (analyze_paper st paper) as [st1|]; [|done].
  bind_simpl. apply IH.
Qed.
End loop.

(** X8. After the loop every bucket that exists is non-empty and is filed
    under one of the four era labels, respectively one of the three medium
    labels, and the sizes of the era buckets, like those of the medium
    buckets, add up to the number of papers. *)
Theorem buckets_labelled_and_nonempty `{Builtins} (papers : list json)
    (st : analysis) :
  analyze_papers no_papers papers = Ok st →
  (∀ label bucket, era_categories st !! label = Some bucket →
                   label ∈ era_labels ∧ bucket ≠ []) ∧
  (∀ label bucket, medium_categories st !! label = Some bucket →
                   label ∈ medium_labels ∧ bucket ≠ []) ∧
  sum_list (length <$> (map_to_list (era_categories st)).*2) = length papers ∧
  sum_list (length <$> (map_to_list (medium_categories st)).*2) = length papers.
Proof.
  intros Hrun.
  destruct (analyze_papers_grouped papers no_papers st Hrun)
    as (cs & Hall & Hcs & [He1 He2] & [Hm1 Hm2]); try apply grouped_empty.
  assert (∀ l bucket, (∅ : gmap pystr (list metadata)) !! l = Some bucket →
                      bucket ≠ []) as Hempty
    by (intros l bucket; by rewrite lookup_empty).
  destruct (analyze_papers_nonempty papers no_papers st Hrun Hempty Hempty)
    as [Hne Hnm].
  simpl in Hall. subst cs.
  assert (∀ c, c ∈ all_papers_metadata st →
               cl_era c ∈ era_labels ∧ cl_medium c ∈ medium_labels) as Hlabels.
  { intros c Hc. apply list_elem_of_lookup in Hc as [i Hi].
    destruct (Forall2_lookup_r _ _ _ _ _ Hcs Hi) as (paper & _ & Hc & _).
    by apply classify_labels with paper. }
  assert (∀ (key : classified → pystr) label bucket,
            bucket ≠ [] →
            bucket = cl_metadata <$>
                       filter (λ c, key c = label) (all_papers_metadata st) →
            ∃ c, c ∈ all_papers_metadata st ∧ key c = label) as Hsome.
  { intros key label bucket Hnil ->.
    destruct (filter _ _) as [|c cs] eqn:Hf; [done|].
    assert (c ∈ filter (λ c, key c = label) (all_papers_metadata st)) as Hc
      by (rewrite Hf; by left).
    apply list_elem_of_filter in Hc as [? ?]. by exists c. }
  assert (∀ d : gmap pystr (list metadata),
            concat ((map_to_list d).*2) ≡ₚ
              cl_metadata <$> all_papers_metadata st →
            sum_list (length <$> (map_to_list d).*2) = length papers) as Hsum.
  { intros d Hperm. rewrite <-length_concat, Hperm, length_fmap.
    symmetry. by eapply Forall2_length. }
  split; [|split; [|split]].
  - intros label bucket Hb. split; [|by eapply Hne].
    destruct (Hsome cl_era label bucket) as (c & Hc & <-).
    + by eapply Hne.
    + by rewrite <-He1, Hb.
    + by apply Hlabels.
  - intros label bucket Hb. split; [|by eapply Hnm].
    destruct (Hsome cl_medium label bucket) as (c & Hc & <-).
    + by eapply Hnm.
    + by rewrite <-Hm1, Hb.
    + by apply Hlabels.
  - by apply Hsum.
  - by apply Hsum.
Qed.

Lemma buckets_labelled_and_nonempty_witness :
  ∃ st,
    @analyze_papers ascii_builtins no_papers
      [tied_paper; waste_land_paper; both_words_paper] = Ok st ∧
    sum_list (length <$> (map_to_list (era_categories st)).*2) = 3%nat.
Proof.
  destruct (@analyze_papers ascii_builtins no_papers
              [tied_paper; waste_land_paper; both_words_paper])
    as [st|] eqn:Hrun; [|vm_compute in Hrun; discriminate Hrun].
  exists st. split; [reflexivity|].
  exact (proj1 (proj2 (proj2
    (@buckets_labelled_and_nonempty ascii_builtins _ st Hrun)))).
Defined.

(** X9. The analysis stops at the first paper that raises: when the papers
    before it are of the expected shape, its exception is the outcome of
    the whole analysis, whatever follows it, and nothing is returned for
    the papers before it. *)
Theorem analysis_stops_at_first_bad_paper `{Builtins} `{Slicing}
    (data : list (pystr * json)) (before after : list json) (paper : json)
    (e : exn) :
  assoc (lit "results") data = Some (JArr (before ++ paper :: after)) →
  Forall (λ p, record_typed p = true) before →
  analyze_paper no_papers paper = Raise e →
  analyze_doaj_modernism (JObj data) = Raise e.
Proof.
  intros Hresults Hbefore Hraise.
  unfold analyze_doaj_modernism. simpl. rewrite Hresults. simpl. bind_simpl.
  rewrite analyze_papers_app.
  destruct (analyze_papers_typed before no_papers Hbefore) as [st1 ->].
  bind_simpl. simpl analyze_papers.
  by rewrite (analyze_paper_Raise no_papers st1 paper e).
Qed.

Lemma analysis_stops_at_first_bad_paper_witness :
  @analyze_doaj_modernism ascii_builtins python_3_12
    (JObj [(lit "total", JNum 3);
           (lit "results", JArr [tied_paper; null_abstract_paper;
                                 waste_land_paper])]) =
  Raise AttributeError.
Proof.
  apply (@analysis_stops_at_first_bad_paper ascii_builtins python_3_12 _
           [tied_paper] [waste_land_paper] null_abstract_paper).
  - reflexivity.
  - repeat constructor.
  - reflexivity.
Defined.

(** X10. The analysis needs [data] to be an object with a [results] key
    holding something iterable: anything but an object raises [TypeError],
    a missing key [KeyError], and [null], a number or a boolean under the
    key [TypeError]. *)
Theorem analysis_needs_results `{Builtins} `{Slicing} (data : json) :
  (is_dict data = false → analyze_doaj_modernism data = Raise TypeError) ∧
  (∀ kvs, data = JObj kvs → assoc (lit "results") kvs = None →
          analyze_doaj_modernism data = Raise KeyError) ∧
  (∀ kvs results, data = JObj kvs →
          assoc (lit "results") kvs = Some results →
          results = JNull ∨ (∃ b, results = JBool b) ∨
            (∃ n, results = JNum n) →
          analyze_doaj_modernism data = Raise TypeError).
Proof.
  unfold analyze_doaj_modernism. repeat split.
  - by destruct data.
  - intros kvs -> Hnone. simpl. by rewrite Hnone.
  - intros kvs results -> Hresults Hkind. simpl. rewrite Hresults.
    by destruct Hkind as [-> | [[b ->] | [n ->]]].
Qed.

Lemma analysis_needs_results_witness :
  @analyze_doaj_modernism ascii_builtins python_3_12 (JArr [tied_paper]) =
    Raise TypeError ∧
  @analyze_doaj_modernism ascii_builtins python_3_12
    (JObj [(lit "total", JNum 0)]) = Raise KeyError ∧
  @analyze_doaj_modernism ascii_builtins python_3_12
    (JObj [(lit "total", JNum 0); (lit "results", JNull)]) = Raise TypeError.
Proof.
  split; [|split].
  - apply (@analysis_needs_results ascii_builtins python_3_12). reflexivity.
  - by apply (proj1 (proj2
        (@analysis_needs_results ascii_builtins python_3_12 _)))
      with [(lit "total", JNum 0)].
  - apply (proj2 (proj2
        (@analysis_needs_results ascii_builtins python_3_12 _)))
      with [(lit "total", JNum 0); (lit "results", JNull)] JNull;
      [reflexivity | reflexivity | by left].
Defined.

(** ** analyze_doaj_modernism as a whole *)


Section whole_function_facts.
Context `{Builtins} `{Slicing}.





End whole_function_facts.




(** * Further properties of create_analysis_format.py *)

(** ** Replacing one character *)

Lemma str_replace_char_char (a b : N) (s : pystr) :
  str_replace [a] [b] s = (λ c, if a =? c then b else c) <$> s.
Proof.
  unfold str_replace. induction s as [|c s IH]; [done|].
  simpl. rewrite andb_true_r. destruct (a =? c); simpl; by rewrite IH.
Qed.

Lemma str_replace_char_nothing (a : N) (s : list N) :
  str_replace [a] [] s = filter (λ c, c ≠ a) s.
Proof.
  unfold str_replace. induction s as [|c s IH]; [done|].
  rewrite filter_cons, <-IH.
  change (replace_from [a] [] 0 (c :: s)) with
    (if (a =? c) && true then [] ++ replace_from [a] [] 0 s
     else c :: replace_from [a] [] 0 s).
  rewrite andb_true_r.
  destruct (N.eqb_spec a c) as [->|Hne]; simpl.
  - by rewrite decide_False by (intros ?; done).
  - by rewrite decide_True by done.
Qed.

Lemma one_line_replace (s : pystr) :
  str_replace CR (lit " ") (str_replace LF (lit " ") s) = one_line_cp <$> s.
Proof.
  unfold CR, LF. change (lit " ") with [32].
  rewrite !str_replace_char_char, <-list_fmap_compose.
  apply list_fmap_ext. intros _ c _. unfold one_line_cp, compose.
  destruct (N.eqb_spec 10 c) as [<-|Hlf]; [reflexivity|].
  destruct (N.eqb_spec 13 c) as [<-|Hcr]; [reflexivity|].
  destruct (N.eqb_spec c 10); [lia|].
  destruct (N.eqb_spec c 13); [lia|]. reflexivity.
Qed.

(** ** The CSV rows *)

(** X11. In a CSV row the abstract is the record's abstract with every line
    feed and carriage return turned into a space, so it is one line of the
    same length, and [abstract_length] is that length. *)
Theorem csv_abstract_is_one_line (paper : json) (row : csv_row) :
  csv_row_of paper = Ok row →
  ∃ abstract,
    py_getitem paper (lit "abstract") = Ok (JStr abstract) ∧
    row_abstract row = one_line_cp <$> abstract ∧
    (10 ∉ row_abstract row) ∧ (13 ∉ row_abstract row) ∧
    length (row_abstract row) = length abstract ∧
    row_abstract_length row = length abstract.
Proof.
  intros Hrow. unfold csv_row_of in Hrow. bind_inv Hrow.
  injection Hrow as <-. cbn [row_abstract row_abstract_length].
  match goal with
  | Hr : py_replace ?ab _ _ = Ok _, Hab : py_getitem paper (lit "abstract") = Ok ?ab,
    Hab2 : py_getitem paper (lit "abstract") = Ok ?ab2,
    Hlen : py_len ?ab2 = Ok _ |- _ =>
      assert (ab2 = ab) as -> by congruence;
      destruct ab as [| | |abstract| |]; try done;
      injection Hr as <-; injection Hlen as <-; rename Hab into Habstract
  end.
  exists abstract.
  change (replace_from CR (lit " ") 0 (replace_from LF (lit " ") 0 abstract))
    with (str_replace CR (lit " ") (str_replace LF (lit " ") abstract)).
  rewrite one_line_replace.
  split; [done|]. split; [done|]. rewrite length_fmap.
  repeat split; try done.
  - intros (c & Hc & _)%list_elem_of_fmap. unfold one_line_cp in Hc.
    destruct (N.eqb_spec c 10), (N.eqb_spec c 13); simpl in Hc; lia.
  - intros (c & Hc & _)%list_elem_of_fmap. unfold one_line_cp in Hc.
    destruct (N.eqb_spec c 10), (N.eqb_spec c 13); simpl in Hc; lia.
Qed.

Lemma csv_abstract_is_one_line_witness :
  ∃ row, csv_row_of (JObj csv_sample_paper) = Ok row ∧
         row_abstract row = lit "First line. Second line." ∧
         row_abstract_length row = 24%nat.
Proof.
  destruct (csv_row_of (JObj csv_sample_paper)) as [row|] eqn:Hrow;
    [|vm_compute in Hrow; discriminate Hrow].
  exists row. split; [reflexivity|].
  destruct (csv_abstract_is_one_line _ row Hrow)
    as (abstract & Ha & Hline & _ & _ & _ & Hlen).
  vm_compute in Ha. injection Ha as <-.
  split; [exact Hline | exact Hlen].
Defined.

Lemma py_getitem_obj kvs k v :
  py_getitem (JObj kvs) k = Ok v → assoc k kvs = Some v.
Proof. simpl. by destruct (assoc k kvs) as [v'|]; [intros [= ->]|]. Qed.

(** X12. A CSV row exists only for a record that is an object with the
    thirteen keys the row reads by subscript; [doi] alone may be missing,
    and then the row has the empty string for it and [No] for [has_doi]. *)
Theorem csv_row_needs_keys (paper : json) (row : csv_row) :
  csv_row_of paper = Ok row →
  ∃ kvs,
    paper = JObj kvs ∧
    Forall (λ k, is_Some (assoc k kvs)) csv_required_keys ∧
    row_doi row = default empty_str (assoc (lit "doi") kvs) ∧
    row_has_doi row = yes_no (py_truthy (default JNull (assoc (lit "doi") kvs))) ∧
    (assoc (lit "doi") kvs = None →
     row_doi row = empty_str ∧ row_has_doi row = lit "No").
Proof.
  intros Hrow. unfold csv_row_of in Hrow. bind_inv Hrow.
  destruct paper as [| | | | |kvs]; try done.
  repeat match goal with
  | Hk : py_getitem (JObj kvs) _ = Ok _ |- _ => apply py_getitem_obj in Hk
  end.
  repeat match goal with
  | Hd : py_get (JObj kvs) _ _ = Ok _ |- _ => injection Hd as <-
  end.
  injection Hrow as <-. cbn [row_doi row_has_doi].
  exists kvs. split; [done|]. split; [|split; [done|split; [done|]]].
  - unfold csv_required_keys. repeat constructor; by eexists.
  - by intros ->.
Qed.

Lemma csv_row_needs_keys_witness :
  ∃ row, csv_row_of (JObj csv_sample_paper) = Ok row ∧
         row_doi row = empty_str ∧ row_has_doi row = lit "No".
Proof.
  destruct (csv_row_of (JObj csv_sample_paper)) as [row|] eqn:Hrow;
    [|vm_compute in Hrow; discriminate Hrow].
  exists row. split; [reflexivity|].
  destruct (csv_row_needs_keys _ row Hrow) as (kvs & [= <-] & _ & _ & _ & Hno).
  apply Hno. reflexivity.
Defined.

(** ** The CSV table *)

Lemma csv_rows_Forall2 papers rows :
  csv_rows papers = Ok rows ↔
  Forall2 (λ paper row, csv_row_of paper = Ok row) papers rows.
Proof.
  revert rows. induction papers as [|paper papers IH]; intros rows; simpl.
  - split; [intros [= <-]; constructor | by intros ->%Forall2_nil_inv_l].
  - rewrite bind_Ok. split.
    + intros (row & Hrow & (rows' & Hrows & [= <-])%bind_Ok).
      constructor; [done | by apply IH].
    + intros (row & rows' & Hrow & Hrows & ->)%Forall2_cons_inv_l.
      exists row. split; [done|]. apply bind_Ok. exists rows'.
      split; [by apply IH | done].
Qed.

(** X13. With no record at all [create_csv_for_analysis] ends in the
    [IndexError] of [csv_data[0]]; when it writes, the header is the
    eighteen column names and there is one row per record, in order. *)
Theorem csv_table_shape (results : json) (papers : list json) :
  all_metadata_of results = Ok papers →
  (papers = [] → create_csv_for_analysis results = CsvIndexError) ∧
  (∀ fieldnames rows,
     create_csv_for_analysis results = CsvWritten fieldnames rows →
     fieldnames = csv_fieldnames ∧ length fieldnames = 18%nat ∧
     length rows = length papers ∧
     Forall2 (λ paper row, csv_row_of paper = Ok row) papers rows).
Proof.
  unfold all_metadata_of, create_csv_for_analysis. intros Hall.
  apply bind_Ok in Hall as (all_metadata & Hget & Hiter).
  rewrite Hget. bind_simpl. rewrite Hiter. bind_simpl. split.
  - by intros ->.
  - intros fieldnames rows.
    destruct (csv_rows papers) as [[|row rows']|] eqn:Hrows; try done.
    intros [= <- <-]. apply csv_rows_Forall2 in Hrows.
    repeat split; try done. symmetry. by eapply Forall2_length.
Qed.

Lemma csv_table_shape_witness :
  create_csv_for_analysis (JObj [(lit "all_metadata", JArr [])]) =
    CsvIndexError.
Proof.
  by apply (csv_table_shape (JObj [(lit "all_metadata", JArr [])]) []).
Defined.

(** ** From the analysis to the CSV table *)

Lemma get_each_strings k xs :
  forallb (field_is_str k) xs = true →
  ∀ vs, get_each k xs = Ok vs → forallb is_str vs = true.
Proof.
  induction xs as [|[| | | | |kvs] xs IH]; simpl; try done.
  - by intros _ vs [= <-].
  - rewrite andb_true_iff. intros [Hx Hxs] vs.
    bind_simpl. destruct (get_each k xs) as [vs'|]; [|done]. bind_simpl.
    intros [= <-]. simpl. rewrite (IH Hxs vs') by done.
    by destruct (assoc (lit k) kvs) as [[]|].
Qed.

Lemma fulltext_urls_strings links :
  forallb (field_is_str "url") links = true →
  ∀ urls, fulltext_urls links = Ok urls → forallb is_str urls = true.
Proof.
  induction links as [|[| | | | |kvs] links IH]; simpl; try done.
  - by intros _ urls [= <-].
  - rewrite andb_true_iff. intros [Hx Hxs] urls. bind_simpl.
    destruct (py_eq_str _ _); [|by apply IH].
    destruct (assoc (lit "url") kvs) as [url|]; [|done].
    destruct (fulltext_urls links) as [urls'|]; [|done]. bind_simpl.
    intros [= <-]. simpl. rewrite (IH Hxs urls') by done.
    by destruct url.
Qed.

(** The metadata of a fully typed record holds strings where the CSV row
    needs them. *)
Lemma typed_metadata_strings paper md :
  record_typed paper = true →
  strings_typed paper = true →
  extract_metadata_for_analysis paper = Ok md →
  metadata_strings md = true.
Proof.
  unfold record_typed, text_typed, lists_typed, strings_typed, bibjson_of.
  destruct paper as [| | | | |kvs]; try done.
  destruct (default empty_dict (assoc (lit "bibjson") kvs))
    as [| | | | |b] eqn:Hbib; try done.
  rewrite !andb_true_iff.
  intros [[[[_ Habs] Hkw] _] [[[[Ha Hj] Hi] Hl] Hs]] [[Han Hlu] Hst].
  apply absent_or_list in Ha as (authors & Ha & [names Hn]%(get_each_typed "name")).
  apply absent_or_dict in Hj as (j & Hj).
  rewrite (extract_metadata_steps kvs b authors names j) by done.
  apply absent_or_list in Hi as (ids & Hi & _).
  apply absent_or_list in Hl as (links & Hl & _).
  apply absent_or_list in Hs as (subjects & Hs & _).
  apply absent_or_list in Han as (authors' & Ha' & Hnames).
  apply absent_or_list in Hlu as (links' & Hl' & Hurls).
  apply absent_or_list in Hst as (subjects' & Hs' & Hterms).
  assert (authors' = authors) as -> by congruence.
  assert (links' = links) as -> by congruence.
  assert (subjects' = subjects) as -> by congruence.
  rewrite Hi, Hl, Hs. simpl py_iter. bind_simpl.
  intros Hmd. bind_inv Hmd. injection Hmd as <-.
  unfold metadata_strings. simpl. rewrite !andb_true_iff.
  repeat split.
  - by apply (get_each_strings "name" authors).
  - by destruct (assoc (lit "keywords") b).
  - by destruct (assoc (lit "abstract") b).
  - by apply (fulltext_urls_strings links).
  - by apply (get_each_strings "term" subjects).
Qed.

Lemma py_join_strs sep xs :
  forallb is_str xs = true → returns (py_join sep (JArr xs)).
Proof.
  intros [ss Hss]%as_strs_typed. unfold py_join. simpl. rewrite Hss.
  bind_simpl. by eexists.
Qed.

(** The row of an object that has the keys. *)
Lemma csv_row_of_obj (kvs : list (pystr * json))
    (id title year era journal publisher country medium a k l s : json)
    (abstract authors keywords links subjects : pystr) (count : nat) :
  assoc (lit "id") kvs = Some id →
  assoc (lit "title") kvs = Some title →
  assoc (lit "authors") kvs = Some a →
  assoc (lit "year") kvs = Some year →
  assoc (lit "era") kvs = Some era →
  assoc (lit "journal") kvs = Some journal →
  assoc (lit "publisher") kvs = Some publisher →
  assoc (lit "country") kvs = Some country →
  assoc (lit "medium") kvs = Some medium →
  assoc (lit "keywords") kvs = Some k →
  assoc (lit "abstract") kvs = Some (JStr abstract) →
  assoc (lit "full_text_links") kvs = Some l →
  assoc (lit "subjects") kvs = Some s →
  py_join (lit "; ") a = Ok authors →
  py_join (lit "; ") k = Ok keywords →
  py_join (lit "; ") l = Ok links →
  py_join (lit "; ") s = Ok subjects →
  py_len k = Ok count →
  csv_row_of (JObj kvs) =
    Ok {| row_id := id; row_title := title; row_authors := authors;
          row_year := year; row_era := era; row_journal := journal;
          row_publisher := publisher; row_country := country;
          row_medium := medium; row_keywords := keywords;
          row_abstract := one_line_cp <$> abstract;
          row_doi := default empty_str (assoc (lit "doi") kvs);
          row_full_text_links := links; row_subjects := subjects;
          row_abstract_length := length abstract;
          row_has_doi :=
            yes_no (py_truthy (default JNull (assoc (lit "doi") kvs)));
          row_has_full_text := yes_no (py_truthy l);
          row_keyword_count := count |}.
Proof.
  intros Hid Htitle Ha Hyear Hera Hjournal Hpublisher Hcountry Hmedium Hk
    Habstract Hl Hs Hauthors Hkeywords Hlinks Hsubjects Hcount.
  unfold csv_row_of, py_getitem, py_get.
  rewrite Hid, Htitle, Ha, Hyear, Hera, Hjournal, Hpublisher, Hcountry,
    Hmedium, Hk, Habstract, Hl, Hs.
  bind_simpl. rewrite Hauthors, Hkeywords, Hlinks, Hsubjects, Hcount.
  bind_simpl. unfold py_replace, py_len. bind_simpl.
  by rewrite one_line_replace.
Qed.

(** A classified record whose metadata holds strings gives a CSV row. *)
Lemma csv_row_of_classified (c : classified) :
  metadata_strings (cl_metadata c) = true →
  ∃ row,
    csv_row_of (classified_json c) = Ok row ∧
    row_id row = md_id (cl_metadata c) ∧
    row_era row = JStr (cl_era c) ∧ row_medium row = JStr (cl_medium c) ∧
    row_doi row = md_doi (cl_metadata c) ∧
    row_has_doi row = yes_no (py_truthy (md_doi (cl_metadata c))).
Proof.
  destruct c as [md era medium]. unfold metadata_strings. simpl.
  rewrite !andb_true_iff. intros [[[[Ha Hk] Hab] Hl] Hs].
  destruct (md_keywords md) as [| | | |kws|] eqn:Hkws; try done.
  destruct (md_abstract md) as [| | |abstract| |] eqn:Habstract; try done.
  destruct (py_join_strs (lit "; ") _ Ha) as [authors Hauthors].
  destruct (py_join_strs (lit "; ") _ Hk) as [keywords Hkeywords].
  destruct (py_join_strs (lit "; ") _ Hl) as [links Hlinks].
  destruct (py_join_strs (lit "; ") _ Hs) as [subjects Hsubjects].
  unfold classified_json, metadata_items. simpl cl_metadata.
  simpl cl_era. simpl cl_medium. rewrite Hkws, Habstract.
  eexists. split.
  - eapply csv_row_of_obj; first [reflexivity | eassumption].
  - done.
Qed.

Section composition.
Context `{Builtins}.

Lemma csv_rows_of_analysis papers cs :
  Forall (λ p, record_typed p = true ∧ strings_typed p = true) papers →
  Forall2 (λ paper c,
             classify paper = Ok (cl_era c, cl_medium c) ∧
             extract_metadata_for_analysis paper = Ok (cl_metadata c))
          papers cs →
  ∃ rows,
    csv_rows (classified_json <$> cs) = Ok rows ∧
    Forall2 (λ c row,
               row_id row = md_id (cl_metadata c) ∧
               row_era row = JStr (cl_era c) ∧
               row_medium row = JStr (cl_medium c) ∧
               row_doi row = md_doi (cl_metadata c) ∧
               row_has_doi row = yes_no (py_truthy (md_doi (cl_metadata c))))
            cs rows.
Proof.
  intros Hty Hcs. revert Hty.
  induction Hcs as [|paper c papers cs [_ Hmd] _ IH]; intros Hty.
  - exists []. by split.
  - apply Forall_cons in Hty as [[Hr Hs] Hty].
    destruct (IH Hty) as (rows & Hrows & Hall).
    destruct (csv_row_of_classified c) as (row & Hrow & Hfacts).
    { by apply typed_metadata_strings with paper. }
    exists (row :: rows). rewrite fmap_cons. cbn [csv_rows].
    rewrite Hrow. bind_simpl. rewrite Hrows. bind_simpl.
    split; [done|]. by constructor.
Qed.
End composition.

(** X14. The two scripts fit together on fully typed records: the analysis
    of a non-empty list of such papers returns, and from a result file that
    holds its records [create_csv_for_analysis] writes one row per paper, in
    order, with the labels the analysis gave and [has_doi] telling whether a
    DOI was found. *)
Theorem analysis_output_gives_csv `{Builtins} (papers : list json) :
  papers ≠ [] →
  Forall (λ p, record_typed p = true ∧ strings_typed p = true) papers →
  ∃ st rows,
    analyze_papers no_papers papers = Ok st ∧
    length rows = length papers ∧
    Forall2 (λ c row,
               row_id row = md_id (cl_metadata c) ∧
               row_era row = JStr (cl_era c) ∧
               row_medium row = JStr (cl_medium c) ∧
               row_doi row = md_doi (cl_metadata c) ∧
               row_has_doi row = yes_no (py_truthy (md_doi (cl_metadata c))))
            (all_papers_metadata st) rows ∧
    ∀ results,
      assoc (lit "all_metadata") results =
        Some (JArr (classified_json <$> all_papers_metadata st)) →
      create_csv_for_analysis (JObj results) = CsvWritten csv_fieldnames rows.
Proof.
  intros Hne Hty.
  destruct (analyze_papers_typed papers no_papers) as [st Hrun].
  { eapply Forall_impl; [exact Hty|]. by intros p [? _]. }
  destruct (analyze_papers_grouped papers no_papers st Hrun)
    as (cs & Hall & Hcs & _); try apply grouped_empty.
  simpl in Hall. subst cs.
  destruct (csv_rows_of_analysis papers _ Hty Hcs) as (rows & Hrows & Hfacts).
  exists st, rows. split; [done|].
  assert (length rows = length papers) as Hlen.
  { rewrite <-(Forall2_length _ _ _ Hfacts). symmetry.
    by eapply Forall2_length. }
  split; [done|]. split; [done|].
  intros results Hresults. unfold create_csv_for_analysis. simpl.
  rewrite Hresults. simpl. bind_simpl. rewrite Hrows.
  destruct rows as [|row rows]; [|done].
  by destruct papers.
Qed.

Lemma analysis_output_gives_csv_witness :
  ∃ st rows,
    @analyze_papers ascii_builtins no_papers [full_paper; tied_paper] = Ok st ∧
    length rows = 2%nat ∧
    create_csv_for_analysis
      (JObj [(lit "all_metadata",
              JArr (classified_json <$> all_papers_metadata st))]) =
    CsvWritten csv_fieldnames rows.
Proof.
  destruct (@analysis_output_gives_csv ascii_builtins [full_paper; tied_paper])
    as (st & rows & Hrun & Hlen & _ & Hcsv).
  - discriminate.
  - repeat constructor.
  - exists st, rows. split; [exact Hrun|]. split; [exact Hlen|].
    apply Hcsv. reflexivity.
Defined.

(** ** The year range *)

Lemma foldl_min_spec (ns : list Z) : ∀ n,
  foldl Z.min n ns ∈ n :: ns ∧ ∀ y, y ∈ n :: ns → (foldl Z.min n ns ≤ y)%Z.
Proof.
  induction ns as [|m ns IH]; intros n; simpl.
  - split; [by left|]. intros y ->%list_elem_of_singleton. lia.
  - destruct (IH (Z.min n m)) as [Hin Hle]. split.
    + apply elem_of_cons in Hin as [Heq|Hin]; [|by do 2 right].
      rewrite Heq. destruct (Z.min_spec n m) as [[_ ->]|[_ ->]];
        [by left | right; by left].
    + intros y Hy.
      assert (foldl Z.min (Z.min n m) ns ≤ Z.min n m)%Z as Hmin
        by (apply Hle; by left).
      apply elem_of_cons in Hy as [->|Hy]; [lia|].
      apply elem_of_cons in Hy as [->|Hy]; [lia|].
      apply Hle. by right.
Qed.

Lemma foldl_max_spec (ns : list Z) : ∀ n,
  foldl Z.max n ns ∈ n :: ns ∧ ∀ y, y ∈ n :: ns → (y ≤ foldl Z.max n ns)%Z.
Proof.
  induction ns as [|m ns IH]; intros n; simpl.
  - split; [by left|]. intros y ->%list_elem_of_singleton. lia.
  - destruct (IH (Z.max n m)) as [Hin Hle]. split.
    + apply elem_of_cons in Hin as [Heq|Hin]; [|by do 2 right].
      rewrite Heq. destruct (Z.max_spec n m) as [[_ ->]|[_ ->]];
        [right; by left | by left].
    + intros y Hy.
      assert (Z.max n m ≤ foldl Z.max (Z.max n m) ns)%Z as Hmax
        by (apply Hle; by left).
      apply elem_of_cons in Hy as [->|Hy]; [lia|].
      apply elem_of_cons in Hy as [->|Hy]; [lia|].
      apply Hle. by right.
Qed.

Section years.
Context `{Builtins}.

(** Every year that enters the range is the [int] of the numeric year
    string of some record. *)
Lemma numeric_years_elem papers : ∀ ys y,
  numeric_years papers = Ok ys → y ∈ ys →
  ∃ p s, p ∈ papers ∧ py_getitem p (lit "year") = Ok (JStr s) ∧
         py_isdigit (JStr s) = Ok true ∧ py_int s = Ok y.
Proof.
  induction papers as [|p papers IH]; intros ys y; simpl.
  - intros [= <-] Hy. by apply elem_of_nil in Hy.
  - intros Hys Hy.
    apply bind_Ok in Hys as (v & Hv & Hys).
    apply bind_Ok in Hys as (numeric & Hd & Hys).
    destruct numeric.
    + bind_inv Hys. injection Hys as <-.
      destruct v as [| | |s| |]; try done.
      match goal with
      | Hv' : py_getitem p _ = Ok ?v', Hint : match ?v' with _ => _ end = Ok _
        |- _ => assert (v' = JStr s) as -> by congruence
      end.
      apply elem_of_cons in Hy as [->|Hy].
      * exists p, s. split; [by left | done].
      * destruct (IH _ y ltac:(eassumption) Hy) as (p' & s' & Hp' & Hrest).
        exists p', s'. split; [by right | done].
    + destruct (IH _ y Hys Hy) as (p' & s' & Hp' & Hrest).
      exists p', s'. split; [by right | done].
Qed.
End years.

Lemma year_range_Ok `{Builtins} (results : json) (first last : Z) :
  year_range results = Ok (first, last) →
  ∃ papers ys,
    all_metadata_of results = Ok papers ∧
    numeric_years papers = Ok ys ∧
    (first ≤ last)%Z ∧
    (∀ y, y ∈ ys → (first ≤ y ≤ last)%Z) ∧
    (∀ y, y = first ∨ y = last →
       ∃ p s, p ∈ papers ∧ py_getitem p (lit "year") = Ok (JStr s) ∧
              py_isdigit (JStr s) = Ok true ∧ py_int s = Ok y).
Proof.
  intros Hrange. unfold year_range in Hrange. bind_inv Hrange.
  injection Hrange as <- <-.
  repeat match goal with
  | H1 : py_getitem results _ = Ok ?a, H2 : py_getitem results _ = Ok ?b |- _ =>
      assert (b = a) as -> by congruence; clear H2
  end.
  repeat match goal with
  | H1 : py_iter ?m = Ok ?a, H2 : py_iter ?m = Ok ?b |- _ =>
      assert (b = a) as -> by congruence; clear H2
  end.
  repeat match goal with
  | H1 : numeric_years ?m = Ok ?a, H2 : numeric_years ?m = Ok ?b |- _ =>
      assert (b = a) as -> by congruence; clear H2
  end.
  match goal with
  | Hi : py_iter _ = Ok ?ps, Hn : numeric_years ?ps = Ok ?ys,
    Hmin : py_min ?ys = Ok _, Hmax : py_max ?ys = Ok _ |- _ =>
      exists ps, ys; destruct ys as [|n ns]; [done|];
      injection Hmin as <-; injection Hmax as <-;
      destruct (foldl_min_spec ns n) as [Hmin_in Hmin_le];
      destruct (foldl_max_spec ns n) as [Hmax_in Hmax_le];
      pose proof (numeric_years_elem ps (n :: ns)) as Helem
  end.
  split. { unfold all_metadata_of. apply bind_Ok. by eexists. }
  split; [done|]. split.
  { etrans; [apply Hmin_le, Hmax_in | done]. }
  split.
  - intros y Hy. split; [by apply Hmin_le | by apply Hmax_le].
  - intros y [-> | ->]; by eapply Helem.
Qed.

(** X15. When the year range is computed, the earliest year is not above
    the latest, both are the [int] of the numeric year string of some
    record, and every numeric year lies between them. *)
Theorem year_range_bounds `{Builtins} (results : json) (first last : Z) :
  year_range results = Ok (first, last) →
  ∃ papers ys,
    all_metadata_of results = Ok papers ∧
    numeric_years papers = Ok ys ∧
    (first ≤ last)%Z ∧
    (∀ y, y ∈ ys → (first ≤ y ≤ last)%Z) ∧
    (∀ y, y = first ∨ y = last →
       ∃ p s, p ∈ papers ∧ py_getitem p (lit "year") = Ok (JStr s) ∧
              py_isdigit (JStr s) = Ok true ∧ py_int s = Ok y).
Proof.
  intros Hrange.
  destruct (year_range_Ok results first last Hrange)
    as (papers & ys & Hall & Hys & Hle & Hin & Hrecords).
  by exists papers, ys.
Qed.

Lemma year_range_bounds_witness :
  @year_range ascii_builtins
    (JObj [(lit "all_metadata", JArr [
       JObj [(lit "year", JStr (lit "2015"))];
       JObj [(lit "year", JStr (lit "n.d."))];
       JObj [(lit "year", JStr (lit "1999"))]])]) = Ok (1999, 2015)%Z ∧
  (1999 ≤ 2015)%Z.
Proof.
  split; [vm_compute; reflexivity|].
  destruct (@year_range_bounds ascii_builtins
    (JObj [(lit "all_metadata", JArr [
       JObj [(lit "year", JStr (lit "2015"))];
       JObj [(lit "year", JStr (lit "n.d."))];
       JObj [(lit "year", JStr (lit "1999"))]])]) 1999 2015)
    as (papers & ys & _ & _ & Hle & _).
  - vm_compute. reflexivity.
  - exact Hle.
Defined.

(** X16. A record whose year is a string that is not numeric does not
    change the year range: the range is the same with the record and
    without it, wherever it stands, and so is the exception if there is
    one. *)
Theorem year_range_ignores_non_numeric `{Builtins}
    (with_it without : list (pystr * json)) (before after : list json)
    (p : list (pystr * json)) (s : pystr) :
  assoc (lit "all_metadata") with_it = Some (JArr (before ++ JObj p :: after)) →
  assoc (lit "all_metadata") without = Some (JArr (before ++ after)) →
  assoc (lit "year") p = Some (JStr s) →
  py_isdigit (JStr s) = Ok false →
  year_range (JObj with_it) = year_range (JObj without).
Proof.
  intros Hwith Hwithout Hyear Hdigit. unfold year_range. simpl.
  rewrite Hwith, Hwithout. simpl. bind_simpl.
  by rewrite (numeric_years_excludes before p s after).
Qed.

Lemma year_range_ignores_non_numeric_witness :
  @year_range ascii_builtins
    (JObj [(lit "all_metadata", JArr [
       JObj [(lit "year", JStr (lit "2015"))];
       JObj [(lit "year", JStr (lit "n.d."))];
       JObj [(lit "year", JStr (lit "1999"))]])]) =
  @year_range ascii_builtins
    (JObj [(lit "all_metadata", JArr [
       JObj [(lit "year", JStr (lit "2015"))];
       JObj [(lit "year", JStr (lit "1999"))]])]).
Proof.
  apply (@year_range_ignores_non_numeric ascii_builtins _ _
           [JObj [(lit "year", JStr (lit "2015"))]]
           [JObj [(lit "year", JStr (lit "1999"))]]
           [(lit "year", JStr (lit "n.d."))] (lit "n.d.")); reflexivity.
Defined.

(** ** The summary statistics *)

Lemma py_len_iter v n papers :
  py_len v = Ok n → py_iter v = Ok papers → n = length papers.
Proof.
  destruct v; try done; simpl; intros [= <-] [= <-];
    by rewrite ?length_fmap.
Qed.

Lemma remove_dups_length {A} `{EqDecision A} (l : list A) :
  (length (remove_dups l) ≤ length l)%nat.
Proof.
  induction l as [|x l IH]; simpl; [done|]. case_match; simpl; lia.
Qed.

Lemma remove_dups_same_length {A} `{EqDecision A} (l k : list A) :
  (∀ x, x ∈ l ↔ x ∈ k) → length (remove_dups l) = length (remove_dups k).
Proof.
  intros Hsame. apply Permutation_length, NoDup_Permutation;
    try apply NoDup_remove_dups.
  intros x. by rewrite !elem_of_remove_dups.
Qed.

Lemma truthy_values_length key papers : ∀ hs,
  truthy_values key papers = Ok hs → (length hs ≤ length papers)%nat.
Proof.
  induction papers as [|p papers IH]; intros hs; simpl.
  - by intros [= <-].
  - intros Hhs. apply bind_Ok in Hhs as (v & _ & Hhs).
    destruct (py_truthy v).
    + bind_inv Hhs. injection Hhs as <-. simpl.
      match goal with Hr : truthy_values _ _ = Ok _ |- _ =>
        apply IH in Hr end. lia.
    + apply IH in Hhs. lia.
Qed.

Lemma with_full_text_length papers : ∀ ps,
  with_full_text papers = Ok ps → (length ps ≤ length papers)%nat.
Proof.
  induction papers as [|p papers IH]; intros ps; simpl.
  - by intros [= <-].
  - intros Hps. bind_inv Hps. injection Hps as <-.
    match goal with Hr : with_full_text _ = Ok _ |- _ => apply IH in Hr end.
    case_match; simpl; lia.
Qed.

Lemma with_doi_length papers : ∀ ps,
  with_doi papers = Ok ps → (length ps ≤ length papers)%nat.
Proof.
  induction papers as [|p papers IH]; intros ps; simpl.
  - by intros [= <-].
  - intros Hps. bind_inv Hps. injection Hps as <-.
    match goal with Hr : with_doi _ = Ok _ |- _ => apply IH in Hr end.
    case_match; simpl; lia.
Qed.

Lemma projected_length k papers : ∀ ps,
  projected k papers = Ok ps → length ps = length papers.
Proof.
  induction papers as [|p papers IH]; intros ps; simpl.
  - by intros [= <-].
  - intros Hps. bind_inv Hps. injection Hps as <-. simpl.
    match goal with Hr : projected _ _ = Ok _ |- _ => apply IH in Hr end.
    lia.
Qed.

Lemma distribution_spec items : ∀ dist,
  distribution items = Ok dist →
  Forall2 (λ item entry, entry.1 = item.1 ∧ py_len item.2 = Ok entry.2)
          items dist.
Proof.
  induction items as [|[label papers] items IH]; intros dist; simpl.
  - intros [= <-]. constructor.
  - intros Hdist. bind_inv Hdist. injection Hdist as <-.
    constructor; [done|]. by apply IH.
Qed.

Lemma numeric_years_length `{Builtins} papers : ∀ ys,
  numeric_years papers = Ok ys → (length ys ≤ length papers)%nat.
Proof.
  induction papers as [|p papers IH]; intros ys; simpl.
  - by intros [= <-].
  - intros Hys. apply bind_Ok in Hys as (v & _ & Hys).
    apply bind_Ok in Hys as ([] & _ & Hys).
    + bind_inv Hys. injection Hys as <-. simpl.
      match goal with Hr : numeric_years _ = Ok _ |- _ => apply IH in Hr end.
      lia.
    + apply IH in Hys. lia.
Qed.

(** X17. What [create_structured_output] reports is consistent: at least
    one paper was analysed, the numbers of countries, journals, papers with
    full text and papers with a DOI do not exceed the number of papers, the
    two text lists have one entry per paper, the list of papers with full
    text has the reported length, each distribution follows the keys of its
    buckets and gives the size of each bucket, the earliest year is not
    above the latest, and the total in DOAJ is 84 whatever the input. *)
Theorem structured_output_consistent `{Builtins} (results : json)
    (out : structured_output) :
  create_structured_output results = Ok out →
  (1 ≤ papers_analyzed out)%nat ∧
  (countries_represented out ≤ papers_analyzed out)%nat ∧
  (journals_represented out ≤ papers_analyzed out)%nat ∧
  (papers_with_full_text out ≤ papers_analyzed out)%nat ∧
  (papers_with_doi out ≤ papers_analyzed out)%nat ∧
  length (all_abstracts out) = papers_analyzed out ∧
  length (all_keywords out) = papers_analyzed out ∧
  length (full_text_available out) = papers_with_full_text out ∧
  (∃ buckets,
     organized_by_era out = JObj buckets ∧ by_era out = buckets.*1 ∧
     Forall2 (λ bucket entry,
                entry.1 = bucket.1 ∧ py_len bucket.2 = Ok entry.2)
             buckets (era_distribution out)) ∧
  (∃ buckets,
     organized_by_medium out = JObj buckets ∧ by_medium out = buckets.*1 ∧
     Forall2 (λ bucket entry,
                entry.1 = bucket.1 ∧ py_len bucket.2 = Ok entry.2)
             buckets (medium_distribution out)) ∧
  (earliest out ≤ latest out)%Z ∧
  total_papers_in_doaj out = 84%Z.
Proof.
  intros Hout. unfold create_structured_output in Hout.
  bind_inv Hout. injection Hout as <-. simpl.
  repeat match goal with
  | H1 : py_getitem results ?k = Ok ?a, H2 : py_getitem results ?k = Ok ?b
    |- _ => assert (b = a) as -> by congruence; clear H2
  end.
  repeat match goal with
  | H1 : all_metadata_of results = Ok ?a,
    H2 : all_metadata_of results = Ok ?b |- _ =>
      assert (b = a) as -> by congruence; clear H2
  end.
  repeat match goal with
  | H1 : with_full_text ?m = Ok ?a, H2 : with_full_text ?m = Ok ?b |- _ =>
      assert (b = a) as -> by congruence; clear H2
  end.
  match goal with
  | Hget : py_getitem results (lit "all_metadata") = Ok ?m,
    Hlen : py_len ?m = Ok ?n,
    Hall : all_metadata_of results = Ok ?ps |- _ =>
      pose proof Hall as Hall'; unfold all_metadata_of in Hall';
      rewrite Hget in Hall'; cbn [mbind result_bind] in Hall';
      rewrite (py_len_iter _ _ _ Hlen Hall'); clear Hall' Hlen
  end.
  repeat match goal with
  | Hd : distinct_count _ _ = Ok _ |- _ =>
      apply bind_Ok in Hd as (? & ?%truthy_values_length & [= <-])
  end.
  repeat match goal with
  | Hd : with_full_text _ = Ok _ |- _ => apply with_full_text_length in Hd
  | Hd : with_doi _ = Ok _ |- _ => apply with_doi_length in Hd
  | Hd : projected _ _ = Ok _ |- _ => apply projected_length in Hd
  | Hd : distribution _ = Ok _ |- _ => apply distribution_spec in Hd
  end.
  match goal with
  | Hr : year_range results = Ok ?r |- _ =>
      destruct r as [first last];
      apply year_range_Ok in Hr as (papers & ys & Hall' & Hys & Hle & _ & Hin)
  end.
  destruct (Hin first) as (p & s & Hp & _); [by left|].
  match goal with
  | Hall : all_metadata_of results = Ok ?ps |- _ =>
      assert (ps = papers) as -> by congruence; clear Hall
  end.
  assert (1 ≤ length papers)%nat as Hone
    by (destruct papers; [by apply elem_of_nil in Hp | simpl; lia]).
  repeat match goal with
  | Hi : py_items ?m = Ok _, Hk : py_keys ?m = Ok _ |- _ =>
      destruct m; try done; injection Hi as <-; injection Hk as <-
  end.
  repeat split; try done; try lia;
    try (etrans; [apply remove_dups_length | done]).
  - eexists. split; [done|]. split; [done|]. done.
  - eexists. split; [done|]. split; [done|]. done.
Qed.

Lemma structured_output_consistent_witness :
  ∃ out, @create_structured_output ascii_builtins sample_results = Ok out ∧
         papers_analyzed out = 1%nat ∧ (earliest out ≤ latest out)%Z.
Proof.
  destruct (@create_structured_output ascii_builtins sample_results)
    as [out|] eqn:Hout; [|vm_compute in Hout; discriminate Hout].
  exists out. split; [reflexivity|].
  destruct (@structured_output_consistent ascii_builtins _ out Hout)
    as (_ & _ & _ & _ & _ & _ & _ & _ & _ & _ & Hle & _).
  split; [|exact Hle].
  vm_compute in Hout. injection Hout as <-. reflexivity.
Defined.

(** ** Counting distinct values *)

Lemma truthy_values_app key ps1 ps2 :
  truthy_values key (ps1 ++ ps2) =
  hs1 ← truthy_values key ps1; hs2 ← truthy_values key ps2; Ok (hs1 ++ hs2).
Proof.
  induction ps1 as [|p ps1 IH]; simpl.
  - by destruct (truthy_values key ps2).
  - destruct (py_getitem p (lit key)) as [v|]; [|done]. bind_simpl.
    destruct (py_truthy v).
    + destruct (py_hash v) as [h|]; [|done]. bind_simpl. rewrite IH.
      destruct (truthy_values key ps1) as [hs1|]; [|done]. bind_simpl.
      by destruct (truthy_values key ps2).
    + by rewrite IH.
Qed.

Lemma truthy_values_perm key ps1 ps2 :
  ps1 ≡ₚ ps2 →
  ∀ hs1, truthy_values key ps1 = Ok hs1 →
  ∃ hs2, truthy_values key ps2 = Ok hs2 ∧ hs1 ≡ₚ hs2.
Proof.
  induction 1 as [|p ps1 ps2 _ IH|p q ps|ps1 ps2 ps3 _ IH1 _ IH2];
    intros hs1 Hhs1.
  - by exists hs1.
  - simpl in *. destruct (py_getitem p (lit key)) as [v|]; [|done].
    bind_simpl. cbn [mbind result_bind] in Hhs1. destruct (py_truthy v).
    + destruct (py_hash v) as [h|]; [|done]. bind_simpl.
      cbn [mbind result_bind] in Hhs1.
      destruct (truthy_values key ps1) as [hs|]; [|done].
      injection Hhs1 as <-. destruct (IH hs eq_refl) as (hs2 & -> & Hperm).
      bind_simpl. eexists. split; [done|]. by constructor.
    + by apply IH.
  - change (q :: p :: ps) with ([q] ++ [p] ++ ps) in Hhs1.
    change (p :: q :: ps) with ([p] ++ [q] ++ ps).
    rewrite !truthy_values_app in *.
    destruct (truthy_values key [q]) as [hq|]; [|done].
    destruct (truthy_values key [p]) as [hp|]; [|done].
    destruct (truthy_values key ps) as [hs|]; [|done].
    cbn [mbind result_bind] in *. injection Hhs1 as <-.
    eexists. split; [done|].
    rewrite !(assoc_L (++)). apply Permutation_app_tail, Permutation_app_comm.
  - destruct (IH1 hs1 Hhs1) as (hs2 & Hhs2 & Hp12).
    destruct (IH2 hs2 Hhs2) as (hs3 & Hhs3 & Hp23).
    exists hs3. split; [done|]. by etrans.
Qed.

(** X18. The number of distinct countries, or journals, does not depend on
    the order of the records, counts a value once however many records
    carry it, and never exceeds the number of records. *)
Theorem distinct_count_is_a_set_size (key : string) (papers : list json)
    (n : nat) :
  distinct_count key papers = Ok n →
  (n ≤ length papers)%nat ∧
  distinct_count key (papers ++ papers) = Ok n ∧
  ∀ papers', papers ≡ₚ papers' → distinct_count key papers' = Ok n.
Proof.
  unfold distinct_count. intros (hs & Hhs & [= <-])%bind_Ok.
  split; [|split].
  - etrans; [apply remove_dups_length|]. by apply truthy_values_length with key.
  - rewrite truthy_values_app, Hhs. bind_simpl. f_equal.
    apply remove_dups_same_length. intros h. rewrite elem_of_app. tauto.
  - intros papers' Hperm.
    destruct (truthy_values_perm key _ _ Hperm hs Hhs) as (hs' & -> & Hhs').
    bind_simpl. f_equal. apply remove_dups_same_length.
    intros h. by rewrite Hhs'.
Qed.

Lemma distinct_count_is_a_set_size_witness :
  distinct_count "country"
    [JObj [(lit "country", JStr (lit "GB"))];
     JObj [(lit "country", empty_str)];
     JObj [(lit "country", JStr (lit "US"))];
     JObj [(lit "country", JStr (lit "GB"))]] = Ok 2%nat ∧
  (2 ≤ 4)%nat.
Proof.
  split; [reflexivity|].
  apply (distinct_count_is_a_set_size "country"
    [JObj [(lit "country", JStr (lit "GB"))];
     JObj [(lit "country", empty_str)];
     JObj [(lit "country", JStr (lit "US"))];
     JObj [(lit "country", JStr (lit "GB"))]] 2).
  reflexivity.
Defined.

(** ** The era files *)

Lemma filename_cp (c : N) :
  let c1 := ascii_lower_cp c in
  let c2 := if 32 =? c1 then 95 else c1 in
  c2 ≠ 40 → c2 ≠ 41 →
  filename_cp_ok (if 45 =? c2 then 95 else c2) = true.
Proof.
  unfold filename_cp_ok, ascii_lower_cp. cbv zeta.
  destruct (N.leb_spec 65 c), (N.leb_spec c 90); cbn [andb];
    repeat match goal with
    | |- context [?a =? ?b] => destruct (N.eqb_spec a b)
    | |- context [?a <=? ?b] => destruct (N.leb_spec a b)
    end; cbn [andb orb negb]; intros; try done; lia.
Qed.

Section era_files.
Context `{Builtins}.
Hypothesis lower_ascii : lower_on_ascii.

Lemma era_filename_ascii era :
  forallb is_ascii_cp era = true →
  era_filename era =
    lit "era_" ++
    ((λ c, if 45 =? c then 95 else c) <$>
       filter (λ c, c ≠ 41)
         (filter (λ c, c ≠ 40)
            ((λ c, if 32 =? c then 95 else c) <$> ascii_lower era))) ++
    lit ".json".
Proof.
  intros Hascii. unfold era_filename. rewrite lower_ascii by done.
  change (lit "-") with [45]. change (lit "_") with [95].
  change (lit ")") with [41]. change (lit "(") with [40].
  change (lit " ") with [32].
  by rewrite !str_replace_char_char, !str_replace_char_nothing.
Qed.

Lemma era_filename_labels :
  era_filename <$> era_labels =
    [lit "era_early_modernism_1890s_1910s.json";
     lit "era_high_modernism_1910s_1920s.json";
     lit "era_late_modernism_1930s_1950s.json";
     lit "era_general_modernism.json"].
Proof.
  unfold era_labels. simpl fmap.
  by rewrite !era_filename_ascii by reflexivity.
Qed.

Lemma era_filename_inj_labels x y :
  x ∈ era_labels → y ∈ era_labels → era_filename x = era_filename y → x = y.
Proof.
  intros Hx Hy.
  assert (∀ z, z ∈ era_labels → forallb is_ascii_cp z = true) as Hascii.
  { intros z Hz. unfold era_labels in Hz.
    repeat (apply elem_of_cons in Hz as [->|Hz]; [reflexivity|]).
    by apply elem_of_nil in Hz. }
  rewrite !era_filename_ascii by auto. clear Hascii.
  unfold era_labels in *.
  repeat (apply elem_of_cons in Hx as [->|Hx]);
    try (by apply elem_of_nil in Hx);
    repeat (apply elem_of_cons in Hy as [->|Hy]);
    try (by apply elem_of_nil in Hy);
    try done;
    intros Heq%bool_decide_eq_true_2; vm_compute in Heq; discriminate Heq.
Qed.

Lemma era_files_spec items : ∀ files,
  era_files items = Ok files →
  Forall2 (λ item file,
             ef_filename file = era_filename item.1 ∧ ef_era file = item.1 ∧
             ef_papers file = item.2 ∧ py_len item.2 = Ok (ef_paper_count file))
          items files.
Proof.
  induction items as [|[era papers] items IH]; intros files; simpl.
  - intros [= <-]. constructor.
  - intros Hfiles. bind_inv Hfiles. injection Hfiles as <-.
    constructor; [done|]. by apply IH.
Qed.
End era_files.

Lemma era_core_spec (s : list N) :
  (λ c, if 45 =? c then 95 else c) <$>
    filter (λ c, c ≠ 41)
      (filter (λ c, c ≠ 40)
         ((λ c, if 32 =? c then 95 else c) <$> (ascii_lower_cp <$> s))) =
  flat_map era_core_cp s.
Proof.
  induction s as [|c s IH]; [done|].
  rewrite !fmap_cons. cbn [flat_map]. rewrite <-IH. clear IH.
  unfold era_core_cp. cbv zeta.
  generalize (ascii_lower_cp c). intros c'.
  destruct (N.eqb_spec c' 32) as [->|H32]; [done|].
  destruct (N.eqb_spec 32 c') as [<-|_]; [done|].
  destruct (N.eqb_spec c' 45) as [->|H45]; [done|].
  destruct (N.eqb_spec c' 40) as [->|H40]; [done|].
  destruct (N.eqb_spec c' 41) as [->|H41]; [done|].
  cbn [orb]. rewrite filter_cons, decide_True by done.
  rewrite filter_cons, decide_True by done. rewrite fmap_cons.
  destruct (N.eqb_spec 45 c') as [<-|_]; done.
Qed.

(** X19. The file name of an era made of ASCII characters is [era_], the
    lower-cased label without parentheses and with an underscore for every
    space and hyphen, and [.json]: what stands between has no space,
    parenthesis, hyphen or capital letter and is no longer than the
    label. *)
Theorem era_filename_is_sanitised `{Builtins} (era : pystr) :
  lower_on_ascii →
  forallb is_ascii_cp era = true →
  era_filename era = lit "era_" ++ flat_map era_core_cp era ++ lit ".json" ∧
  forallb filename_cp_ok (flat_map era_core_cp era) = true ∧
  (length (flat_map era_core_cp era) ≤ length era)%nat.
Proof.
  intros Hlow Hascii. rewrite <-era_core_spec.
  split; [by apply era_filename_ascii|]. split.
  - apply forallb_forall. intros c Hc. apply list_elem_of_In in Hc.
    apply list_elem_of_fmap in Hc as (c2 & -> & Hc).
    apply list_elem_of_filter in Hc as [H41 Hc].
    apply list_elem_of_filter in Hc as [H40 Hc].
    apply list_elem_of_fmap in Hc as (c1 & -> & Hc).
    apply list_elem_of_fmap in Hc as (c0 & -> & _).
    by apply filename_cp.
  - rewrite length_fmap.
    etrans; [apply length_filter|]. etrans; [apply length_filter|].
    by rewrite !length_fmap.
Qed.

Lemma era_filename_is_sanitised_witness :
  @era_filename ascii_builtins Early_Modernism =
    lit "era_early_modernism_1890s_1910s.json".
Proof.
  destruct (@era_filename_is_sanitised ascii_builtins Early_Modernism)
    as (Hname & _ & _).
  - intros s _. reflexivity.
  - reflexivity.
  - rewrite Hname. vm_compute. reflexivity.
Defined.

(** X20. For buckets filed under era labels [create_era_specific_files]
    writes one file per bucket, in order, holding the label, the bucket and
    its size, and no two files have the same name, so none is overwritten. *)
Theorem era_files_are_distinct `{Builtins} (results : json)
    (buckets : list (pystr * json)) (files : list era_file) :
  lower_on_ascii →
  py_getitem results (lit "era_categories") = Ok (JObj buckets) →
  NoDup buckets.*1 →
  Forall (λ label, label ∈ era_labels) buckets.*1 →
  create_era_specific_files results = Ok files →
  NoDup (ef_filename <$> files) ∧
  Forall2 (λ bucket file,
             ef_filename file = era_filename bucket.1 ∧
             ef_era file = bucket.1 ∧ ef_papers file = bucket.2 ∧
             py_len bucket.2 = Ok (ef_paper_count file))
          buckets files.
Proof.
  intros Hlow Hget Hnodup Hlabels.
  unfold create_era_specific_files. rewrite Hget. bind_simpl.
  intros Hfiles%era_files_spec. split; [|done].
  assert (ef_filename <$> files = era_filename <$> buckets.*1) as ->.
  { clear Hget Hnodup Hlabels.
    induction Hfiles as [|bucket file buckets files (Hname & _) _ IH];
      [done|]. rewrite !fmap_cons. by f_equal. }
  apply NoDup_fmap_2_strong; [|done].
  intros x y Hx Hy. apply (era_filename_inj_labels Hlow).
  - by apply (proj1 (Forall_forall _ _) Hlabels).
  - by apply (proj1 (Forall_forall _ _) Hlabels).
Qed.

Lemma era_files_are_distinct_witness :
  ∃ files,
    @create_era_specific_files ascii_builtins four_era_results = Ok files ∧
    length files = 4%nat ∧ NoDup (ef_filename <$> files).
Proof.
  destruct (@create_era_specific_files ascii_builtins four_era_results)
    as [files|] eqn:Hfiles; [|vm_compute in Hfiles; discriminate Hfiles].
  exists files. split; [reflexivity|].
  destruct (@era_files_are_distinct ascii_builtins four_era_results
              four_era_buckets files) as [Hdistinct Hfour].
  - intros s _. reflexivity.
  - reflexivity.
  - by apply (bool_decide_unpack _).
  - by apply (bool_decide_unpack _).
  - exact Hfiles.
  - split; [|exact Hdistinct].
    symmetry. exact (Forall2_length _ _ _ Hfour).
Defined.
